(** * The JSON-RPC proxy handler of [app/proxy/proxy.go]

    A shallow embedding of [Handle], [HandleCORS] and [GetAuthError], the
    three functions of package [proxy], together with the observer that
    wraps the metrics timer.  The packages the handler calls into
    ([query], [cache], [rpcerrors], [sdkrouter], [auth], [responses],
    [lbrynext], [monitor], [metrics]) are collaborators: their functions
    are fields of the record [Deps], their data are fields of the request
    and of the handler state, and their effects are events of a trace. *)

From Stdlib Require Import ZArith NArith Ascii String List Lia.
From Stdlib.Strings Require Byte.
From stdpp Require Import base option list strings gmap.

Local Open Scope string_scope.
Local Open Scope Z_scope.

(** ** Data *)

Abbreviation bytes := (list Byte.byte).

(** A decoded JSON document, the dynamic type of [RPCRequest.Params] and
    [RPCResponse.Result] ([interface{}] in the jsonrpc library). *)
#[warnings="-register-all"] Inductive JSONValue : Type :=
  | JNull
  | JBool (b : bool)
  | JNumber (n : Z)
  | JString (s : string)
  | JArray (items : list JSONValue)
  | JObject (fields : list (string * JSONValue)).

(** Go [error] values that flow through the handler.  A nil error is
    [None] in [option error]. *)
Inductive error : Type :=
  | Err (msg : string)                  (* errors.Err(msg) *)
  | ErrNoAuthInfo                       (* auth.ErrNoAuthInfo *)
  | AuthRequiredError                   (* rpcerrors.NewAuthRequiredError() *)
  | ForbiddenError (cause : error)      (* rpcerrors.NewForbiddenError(e) *)
  | JSONParseError (cause : error)      (* rpcerrors.NewJSONParseError(e) *)
  | InternalError (cause : error)       (* rpcerrors.NewInternalError(e) *)
  | Foreign (descr : string).           (* io, encoding/json, network ... *)

(** [models.User]: only the primary key is read by the handler. *)
Record User : Type := { ID : Z }.

(** [models.LbrynetServer]: only the address is read by the handler. *)
Record LbrynetServer : Type := { Address : string }.

(** [jsonrpc.RPCRequest]. *)
Record RPCRequest : Type := {
  Method : string;
  Params : JSONValue;
  req_ID : Z;
  req_JSONRPC : string
}.

(** [jsonrpc.RPCError] and [jsonrpc.RPCResponse]. *)
Record RPCError : Type := {
  Code : Z;
  Message : string;
  Data : JSONValue
}.

Record RPCResponse : Type := {
  res_JSONRPC : string;
  Result : JSONValue;
  Error : option RPCError;
  res_ID : Z
}.

(** [cache.QueryCache] is an interface; the handler only passes the handle
    around. *)
Inductive QueryCache : Type := CacheHandle (id : positive).

(** The failure kinds of package [metrics] used as the third label. *)
Inductive FailureKind : Type :=
  | FailureKindClient
  | FailureKindClientJSON
  | FailureKindAuth
  | FailureKindNet
  | FailureKindRPCJSON
  | FailureKindRPC.

(** The two closures [Handle] registers as postflight hooks, with the
    variables each one captures. *)
Inductive HookHandler : Type :=
  | LogRemoteIP (remoteIP : string)
  | AuditWalletSend (userID : Z) (remoteIP : string) (body : bytes).

Record Hook : Type := {
  hook_pattern : string;
  hook_handler : HookHandler;
  hook_builder : string
}.

(** [query.Caller]: bound backend address, bound user id, registered
    postflight hooks and the attached cache ([None] is a nil interface). *)
Record Caller : Type := {
  endpoint : string;
  userID : Z;
  postflightHooks : list Hook;
  Cache : option QueryCache
}.

(** Modelled from the spec: the Backend Registry of section 4.1, whose
    package [sdkrouter] is not part of the sources.  It holds the ordered
    collection of live backends. *)
Record Router : Type := { servers : list LbrynetServer }.

(** What reading [r.Body] to the end gives: the bytes read and the error,
    as [ioutil.ReadAll] returns them. *)
Record ReadResult : Type := { read_data : bytes; read_err : option error }.

(** The part of [*http.Request] the handler looks at.  The values that the
    middleware attached to the request context are fields:
    [auth.FromRequest], [sdkrouter.FromRequest], [cache.IsOnRequest] /
    [cache.FromRequest] and [ip.FromRequest] read them back. *)
Record Request : Type := {
  http_method : string;
  Body : option ReadResult;
  ctx_user : option User;
  ctx_auth_err : option error;
  ctx_router : Router;
  ctx_cache : option QueryCache;
  ctx_remote_ip : string
}.

(** [http.ResponseWriter]: the header map under construction, the status
    line with the header snapshot that went out with it (once
    [WriteHeader] has run), and the body bytes written so far. *)
Record ResponseWriter : Type := {
  Header : gmap string (list string);
  wroteHeader : option (Z * gmap string (list string));
  written : bytes
}.

Inductive LogLevel : Type := Trace | Debug | ErrorLevel.

(** Effects on the collaborators, in the order the handler performs
    them.  The duration value of an observation is wall-clock time and is
    left out; the labels are kept. *)
Inductive Event : Type :=
  | EvObserveDuration (method address : string)
      (* metrics.ProxyE2ECallDurations *)
  | EvObserveFailedDuration (method address : string) (kind : FailureKind)
      (* metrics.ProxyE2ECallFailedDurations *)
  | EvLog (level : LogLevel) (format : string)
  | EvSentry (err : error)
  | EvNewCaller (address : string) (uid : Z)
  | EvAddPostflightHook (h : Hook)
  | EvInstallHooks
  | EvCall (c : Caller) (req : RPCRequest).

(** The state a request handler runs against: the response writer, the
    trace of effects, and the two pieces of router state that the model
    of package [sdkrouter] below reads (the user-to-backend bindings and
    the source of randomness). *)
Record State : Type := {
  rw : ResponseWriter;
  trace : list Event;
  bindings : gmap Z string;   (* user id -> sticky backend address *)
  rand_source : nat           (* the random source *)
}.

(** The collaborators whose code is outside this package. *)
Record Deps : Type := {
  MethodRequiresWallet : string -> JSONValue -> bool;
  MethodAcceptsWallet : string -> bool;
  MethodWalletSend : string;
  errors_Is : option error -> error -> bool;
  decodeRequest : bytes -> error + RPCRequest;
  rpcerrors_JSON : error -> bytes;
  rpcerrors_ErrorToJSON : error -> bytes;
  rpcerrors_ToJSON : error -> bytes;
  JSONRPCSerialize : option RPCResponse -> bytes * option error;
  InstallHooks : Caller -> Caller;
  Call : Caller -> RPCRequest -> option RPCResponse * option error;
  TokenHeader : string;
  JSONContentType : string
}.

(** ** The handler monad: state passing with Go panics *)

Inductive Outcome (A : Type) : Type :=
  | Returned (a : A)
  | Panicked (msg : string).
Arguments Returned {A} a.
Arguments Panicked {A} msg.

Definition M (A : Type) : Type := State -> Outcome A * State.

#[global] Instance M_ret : MRet M := fun A a s => (Returned a, s).
#[global] Instance M_bind : MBind M := fun A B f m s =>
  match m s with
  | (Returned a, s') => f a s'
  | (Panicked msg, s') => (Panicked msg, s')
  end.

Definition panic {A} (msg : string) : M A := fun s => (Panicked msg, s).
Definition get_state : M State := fun s => (Returned s, s).
Definition modify (f : State -> State) : M unit :=
  fun s => (Returned tt, f s).

Definition nil_dereference : string :=
  "runtime error: invalid memory address or nil pointer dereference".

(** Reading a field through a pointer. *)
Definition deref {A} (p : option A) : M A :=
  match p with
  | Some a => mret a
  | None => panic nil_dereference
  end.

Definition emit (e : Event) : M unit :=
  modify (fun s => {| rw := rw s; trace := trace s ++ [e];
                      bindings := bindings s; rand_source := rand_source s |}).

Definition with_rw (f : ResponseWriter -> ResponseWriter) : M unit :=
  modify (fun s => {| rw := f (rw s); trace := trace s;
                      bindings := bindings s; rand_source := rand_source s |}).

(** ** [net/http] response writer *)

Definition StatusOK : Z := 200.
Definition StatusBadRequest : Z := 400.

(** [w.Header().Set(k, v)].  Every key the package sets is already in
    canonical MIME form. *)
Definition Header_Set (k v : string) : M unit :=
  with_rw (fun w => {| Header := <[k := [v]]> (Header w);
                       wroteHeader := wroteHeader w;
                       written := written w |}).

(** [w.WriteHeader(code)]: the first call sends the status line and the
    headers set so far; a later call is ignored. *)
Definition send_header (code : Z) (w : ResponseWriter) : ResponseWriter :=
  match wroteHeader w with
  | Some _ => w
  | None => {| Header := Header w;
               wroteHeader := Some (code, Header w);
               written := written w |}
  end.

Definition WriteHeader (code : Z) : M unit := with_rw (send_header code).

(** [w.Write(b)]: sends the header with status 200 when none went out
    yet, then appends to the body. *)
Definition Write (b : bytes) : M unit :=
  with_rw (fun w => let w' := send_header StatusOK w in
                    {| Header := Header w';
                       wroteHeader := wroteHeader w';
                       written := written w' ++ b |}).

Definition newResponseWriter : ResponseWriter :=
  {| Header := ∅; wroteHeader := None; written := [] |}.

Definition initState (b : gmap Z string) (seed : nat) : State :=
  {| rw := newResponseWriter; trace := []; bindings := b; rand_source := seed |}.

(** ** [encoding/json] *)

Definition json_space (b : Byte.byte) : bool :=
  match b with
  | Byte.x20 | Byte.x09 | Byte.x0a | Byte.x0d => true
  | _ => false
  end.

Fixpoint skip_space (l : bytes) : bytes :=
  match l with
  | b :: l' => if json_space b then skip_space l' else l
  | [] => []
  end.

Fixpoint bytes_eqb (a b : bytes) : bool :=
  match a, b with
  | [], [] => true
  | x :: a', y :: b' => Byte.eqb x y && bytes_eqb a' b'
  | _, _ => false
  end.

Definition null_literal : bytes := [Byte.x6e; Byte.x75; Byte.x6c; Byte.x6c].

(** The document is the literal [null], with optional white space around
    it. *)
Definition is_json_null (body : bytes) : bool :=
  bytes_eqb (rev (skip_space (rev (skip_space body)))) null_literal.

Section Proxy.

Context (D : Deps).

(** [json.Unmarshal(body, &rpcReq)] with [rpcReq] a nil
    [*jsonrpc.RPCRequest].  The decoder handles the literal [null] first:
    it sets the pointer to nil and reports no error.  Any other document
    either fails or allocates the request and fills it. *)
Definition json_Unmarshal (body : bytes) : option RPCRequest * option error :=
  if is_json_null body then (None, None)
  else match decodeRequest D body with
       | inl e => (None, Some e)
       | inr req => (Some req, None)
       end.

(** ** The observer

    [newObserver] starts the metrics timer and [o.Done()] stops it; the
    measured duration is not modelled, the observations are. *)

Definition observeFailure (method address : string) (kind : FailureKind)
  : M unit :=
  emit (EvObserveDuration method address) ;;
  emit (EvObserveFailedDuration method address kind).

Definition observeSuccess (method address : string) : M unit :=
  emit (EvObserveDuration method address).

Definition Logf (level : LogLevel) (format : string) : M unit :=
  emit (EvLog level format).

(** ** Collaborators that read the request or the state *)

(** [responses.AddJSONContentType(w)]. *)
Definition AddJSONContentType : M unit :=
  Header_Set "Content-Type" (JSONContentType D).

Definition auth_FromRequest (r : Request) : option User * option error :=
  (ctx_user r, ctx_auth_err r).

Definition sdkrouter_FromRequest (r : Request) : Router := ctx_router r.

Definition cache_IsOnRequest (r : Request) : bool :=
  match ctx_cache r with Some _ => true | None => false end.

Definition cache_FromRequest (r : Request) : option QueryCache := ctx_cache r.

Definition ip_FromRequest (r : Request) : string := ctx_remote_ip r.

(** Modelled from the spec: [sdkrouter.GetSDKAddress], which is not part
    of the sources.  It is the [bindingFor] of section 4.1: the sticky
    backend of the user if one exists, and the empty string for a nil
    user or a user without a binding. *)
Definition GetSDKAddress (user : option User) : M string :=
  s ← get_state;
  mret (match user with
        | Some u => default "" (bindings s !! ID u)
        | None => ""
        end).

(** Modelled from the spec: the randomness behind [pickRandom] of section
    4.1.  The random source is a reservoir of entropy, a number read digit
    by digit: a draw among [n] live backends takes the lowest digit in
    base [n] as the index and leaves the higher digits for later draws. *)
Definition random_index (source n : nat) : nat := (source mod n)%nat.

Definition random_rest (source n : nat) : nat := (source / n)%nat.

Definition set_rand_source (v : nat) : M unit :=
  modify (fun s => {| rw := rw s; trace := trace s;
                      bindings := bindings s; rand_source := v |}).

(** Modelled from the spec: [Router.RandomServer], which is not part of
    the sources.  It is the [pickRandom] of section 4.1: the live backend
    at the drawn index, the draw being taken out of the random source.
    With an empty pool there is no server to point to, and nothing is
    drawn. *)
Definition RandomServer (rt : Router) : M (option LbrynetServer) :=
  s ← get_state;
  match servers rt with
  | [] => mret None
  | _ =>
      let n := length (servers rt) in
      set_rand_source (random_rest (rand_source s) n) ;;
      mret (servers rt !! random_index (rand_source s) n)
  end.

(** ** [GetAuthError] *)

Definition is_nil {A} (p : option A) : bool :=
  match p with None => true | Some _ => false end.

Definition GetAuthError (user : option User) (err : option error)
  : option error :=
  if is_nil err && negb (is_nil user) then None
  else if errors_Is D err ErrNoAuthInfo then Some AuthRequiredError
  else match err with
       | Some e => Some (ForbiddenError e)
       | None =>
           if is_nil user
           then Some (ForbiddenError (Err "must authenticate"))
           else Some (Err "unknown auth error")
       end.

(** ** [query.Caller] construction *)

Definition NewCaller (address : string) (uid : Z) : M Caller :=
  emit (EvNewCaller address uid) ;;
  mret {| endpoint := address; userID := uid;
          postflightHooks := []; Cache := None |}.

Definition AddPostflightHook (c : Caller) (pattern : string)
    (h : HookHandler) (builder : string) : M Caller :=
  let hk := {| hook_pattern := pattern; hook_handler := h;
               hook_builder := builder |} in
  emit (EvAddPostflightHook hk) ;;
  mret {| endpoint := endpoint c; userID := userID c;
          postflightHooks := postflightHooks c ++ [hk]; Cache := Cache c |}.

Definition lbrynext_InstallHooks (c : Caller) : M Caller :=
  emit EvInstallHooks ;; mret (InstallHooks D c).

Definition set_Cache (c : Caller) (q : option QueryCache) : Caller :=
  {| endpoint := endpoint c; userID := userID c;
     postflightHooks := postflightHooks c; Cache := q |}.

Definition Caller_Call (c : Caller) (req : RPCRequest)
  : M (option RPCResponse * option error) :=
  emit (EvCall c req) ;; mret (Call D c req).

(** ** [Handle] *)

(** Lines 110 to 114: the sticky backend of the user, or a random live
    backend when there is none. *)
Definition selectBackend (r : Request) (user : option User) : M string :=
  sdkAddress ← GetSDKAddress user;
  if String.eqb sdkAddress ""
  then (let rt := sdkrouter_FromRequest r in
        srv ← RandomServer rt;
        srv ← deref srv;
        mret (Address srv))
  else mret sdkAddress.

(** Lines 105 to 108: the user id the Caller is bound to. *)
Definition callerUserID (rpcReq : RPCRequest) (user : option User) : Z :=
  if MethodAcceptsWallet D (Method rpcReq) && negb (is_nil user)
  then from_option ID 0 user
  else 0.

(** Lines 116 to 134: the Caller with its hooks and cache. *)
Definition buildCaller (r : Request) (body : bytes) (sdkAddress : string)
    (uid : Z) : M Caller :=
  let qCache := if cache_IsOnRequest r then cache_FromRequest r else None in
  c ← NewCaller sdkAddress uid;
  let remoteIP := ip_FromRequest r in
  c ← AddPostflightHook c "wallet_" (LogRemoteIP remoteIP) "";
  c ← AddPostflightHook c (MethodWalletSend D)
        (AuditWalletSend uid remoteIP body) "";
  c ← lbrynext_InstallHooks c;
  mret (set_Cache c qCache).

(** Lines 138 to 170: the answer to the client once the call is back. *)
Definition respond (rpcReq : RPCRequest) (sdkAddress : string)
    (rpcRes : option RPCResponse) (err : option error) : M unit :=
  match err with
  | Some e =>
      emit (EvSentry e) ;;
      Write (rpcerrors_ToJSON D e) ;;
      Logf ErrorLevel "error calling lbrynet: %v, request: %+v" ;;
      observeFailure (Method rpcReq) sdkAddress FailureKindNet
  | None =>
      let '(serialized, err) := JSONRPCSerialize D rpcRes in
      match err with
      | Some e =>
          emit (EvSentry e) ;;
          Write (rpcerrors_JSON D (InternalError e)) ;;
          Logf ErrorLevel "error marshaling response: %v" ;;
          observeFailure (Method rpcReq) sdkAddress FailureKindRPCJSON
      | None =>
          res ← deref rpcRes;
          match Error res with
          | Some _ =>
              observeFailure (Method rpcReq) sdkAddress FailureKindRPC ;;
              Logf ErrorLevel "proxy handler got rpc error: %v"
          | None => observeSuccess (Method rpcReq) sdkAddress
          end ;;
          Write serialized
      end
  end.

(** Lines 105 to 170: the request is decoded and has passed the auth
    gate. *)
Definition forward (r : Request) (body : bytes) (rpcReq : RPCRequest)
    (user : option User) : M unit :=
  let uid := callerUserID rpcReq user in
  sdkAddress ← selectBackend r user;
  c ← buildCaller r body sdkAddress uid;
  '(rpcRes, err) ← Caller_Call c rpcReq;
  respond rpcReq sdkAddress rpcRes err.

Definition Handle (r : Request) : M unit :=
  AddJSONContentType ;;
  match Body r with
  | None =>
      WriteHeader StatusBadRequest ;;
      Write (rpcerrors_JSON D (JSONParseError (Err "empty request body"))) ;;
      observeFailure "" "" FailureKindClient ;;
      Logf Debug "empty request body"
  | Some rd =>
      match read_err rd with
      | Some _ =>
          WriteHeader StatusBadRequest ;;
          Write (rpcerrors_JSON D
                   (JSONParseError (Err "error reading request body"))) ;;
          observeFailure "" "" FailureKindClient ;;
          Logf Debug "error reading request body: %v"
      | None =>
          let body := read_data rd in
          let '(rpcReq, err) := json_Unmarshal body in
          match err with
          | Some e =>
              Write (rpcerrors_JSON D (JSONParseError e)) ;;
              observeFailure "" "" FailureKindClientJSON ;;
              Logf Debug "error unmarshaling request body: %v"
          | None =>
              rpcReq ← deref rpcReq;
              Logf Trace "call to method %s" ;;
              let '(user, err) := auth_FromRequest r in
              if MethodRequiresWallet D (Method rpcReq) (Params rpcReq)
              then match GetAuthError user err with
                   | Some authErr =>
                       Write (rpcerrors_ErrorToJSON D authErr) ;;
                       observeFailure (Method rpcReq) "" FailureKindAuth
                   | None => forward r body rpcReq user
                   end
              else forward r body rpcReq user
          end
      end
  end.

(** ** [HandleCORS] *)

Definition HandleCORS (r : Request) : M unit :=
  Header_Set "Access-Control-Max-Age" "7200" ;;
  Header_Set "Access-Control-Allow-Origin" "*" ;;
  Header_Set "Access-Control-Allow-Headers"
    (TokenHeader D ++ ", Origin, X-Requested-With, Content-Type, Accept") ;;
  WriteHeader StatusOK.

End Proxy.


(** ** Reading a run *)

Definition outcome {A} (m : M A) (s : State) : Outcome A := (m s).1.
Definition final {A} (m : M A) (s : State) : State := (m s).2.

(** The random source that backend selection leaves, and the state
    after selection: only the random source can differ. *)
Definition rand_after (r : Request) (user : option User) (s : State) : nat :=
  rand_source (final (selectBackend r user) s).
Arguments rand_after : simpl never.

Definition selected (r : Request) (user : option User) (s : State) : State :=
  {| rw := rw s; trace := trace s; bindings := bindings s;
     rand_source := rand_after r user s |}.



(** The events a run adds to the trace it started with. *)
Definition added {A} (m : M A) (s : State) : list Event :=
  drop (length (trace s)) (trace (final m s)).

(** The events that concern the [query.Caller]: its construction, hook
    registration and the call that reaches the backend. *)
Definition caller_event (e : Event) : bool :=
  match e with
  | EvNewCaller _ _ | EvAddPostflightHook _ | EvInstallHooks | EvCall _ _ => true
  | _ => false
  end.

Definition is_overall (e : Event) : bool :=
  match e with EvObserveDuration _ _ => true | _ => false end.

Definition is_failed (e : Event) : bool :=
  match e with EvObserveFailedDuration _ _ _ => true | _ => false end.

Definition is_sentry (e : Event) : bool :=
  match e with EvSentry _ => true | _ => false end.

Definition keep (p : Event -> bool) (evs : list Event) : list Event :=
  List.filter p evs.

(** The same request with another body, and with another resolved user. *)
Definition with_body (r : Request) (b : option ReadResult) : Request :=
  {| http_method := http_method r; Body := b;
     ctx_user := ctx_user r; ctx_auth_err := ctx_auth_err r;
     ctx_router := ctx_router r; ctx_cache := ctx_cache r;
     ctx_remote_ip := ctx_remote_ip r |}.

Definition with_user (r : Request) (u : option User) (e : option error)
  : Request :=
  {| http_method := http_method r; Body := Body r;
     ctx_user := u; ctx_auth_err := e;
     ctx_router := ctx_router r; ctx_cache := ctx_cache r;
     ctx_remote_ip := ctx_remote_ip r |}.

Definition readable (b : bytes) : option ReadResult :=
  Some {| read_data := b; read_err := None |}.

(** The Caller that lines 116 to 134 hand to [Call]. *)
Definition callerFor (D : Deps) (r : Request) (body : bytes)
    (sdkAddress : string) (uid : Z) : Caller :=
  set_Cache
    (InstallHooks D
       {| endpoint := sdkAddress; userID := uid;
          postflightHooks :=
            [ {| hook_pattern := "wallet_";
                 hook_handler := LogRemoteIP (ctx_remote_ip r);
                 hook_builder := "" |};
              {| hook_pattern := MethodWalletSend D;
                 hook_handler := AuditWalletSend uid (ctx_remote_ip r) body;
                 hook_builder := "" |} ];
          Cache := None |})
    (ctx_cache r).

(** The body was read and decoded to the request [req]. *)
Definition decodes (D : Deps) (r : Request) (rd : ReadResult)
    (req : RPCRequest) : Prop :=
  Body r = Some rd /\ read_err rd = None /\
  json_Unmarshal D (read_data rd) = (Some req, None).

(** The request is let through by lines 94 to 103. *)
Definition passes_gate (D : Deps) (r : Request) (req : RPCRequest) : Prop :=
  MethodRequiresWallet D (Method req) (Params req) = true ->
  GetAuthError D (ctx_user r) (ctx_auth_err r) = None.

(** The state when line 105 is reached. *)
Definition at_gate (D : Deps) (s : State) : State :=
  {| rw := {| Header := <["Content-Type" := [JSONContentType D]]> (Header (rw s));
              wroteHeader := wroteHeader (rw s);
              written := written (rw s) |};
     trace := trace s ++ [EvLog Trace "call to method %s"];
     bindings := bindings s; rand_source := rand_source s |}.

(** The state when [c.Call] has returned. *)
Definition after_call (D : Deps) (r : Request) (body : bytes)
    (req : RPCRequest) (addr : string) (uid : Z) (s : State) : State :=
  {| rw := rw s;
     trace := trace s ++
       [EvNewCaller addr uid;
        EvAddPostflightHook {| hook_pattern := "wallet_";
                               hook_handler := LogRemoteIP (ctx_remote_ip r);
                               hook_builder := "" |};
        EvAddPostflightHook {| hook_pattern := MethodWalletSend D;
                               hook_handler :=
                                 AuditWalletSend uid (ctx_remote_ip r) body;
                               hook_builder := "" |};
        EvInstallHooks;
        EvCall (callerFor D r body addr uid) req];
     bindings := bindings s; rand_source := rand_source s |}.

(** Modelled from the spec: the serializers of package [rpcerrors] and
    [responses.JSONRPCSerialize] are not part of the sources.  Sections
    4.6 and 7 say that every failure kind maps to a JSON-RPC-shaped error
    response; [envelope] is the set of such bodies.  A backend response
    that carries an error serializes to one too. *)
Record SerializersWellFormed (D : Deps) (envelope : bytes -> Prop) : Prop := {
  wf_JSON : forall e, envelope (rpcerrors_JSON D e);
  wf_ErrorToJSON : forall e, envelope (rpcerrors_ErrorToJSON D e);
  wf_ToJSON : forall e, envelope (rpcerrors_ToJSON D e);
  wf_passthrough : forall res rpcErr ser,
    Error res = Some rpcErr ->
    JSONRPCSerialize D (Some res) = (ser, None) ->
    envelope ser
}.

(** The failure paths of [Handle], each given by the condition on the
    request and on the collaborators under which the code takes it, with
    the failure kind it records: the nil body of lines 61 to 68, the read
    error of lines 70 to 79, the decoding error of lines 81 to 90, the
    auth error of lines 94 to 103, the call error of lines 138 to 146, the
    serialization error of lines 147 to 157 and the [Error] of the
    backend's response of lines 159 to 170. *)
Inductive FailurePath (D : Deps) (r : Request) (s : State)
  : FailureKind -> Prop :=
  | EmptyBody :
      Body r = None ->
      FailurePath D r s FailureKindClient
  | UnreadableBody (rd : ReadResult) (e : error) :
      Body r = Some rd ->
      read_err rd = Some e ->
      FailurePath D r s FailureKindClient
  | UnparseableJSON (rd : ReadResult) (req : option RPCRequest) (e : error) :
      Body r = Some rd ->
      read_err rd = None ->
      json_Unmarshal D (read_data rd) = (req, Some e) ->
      FailurePath D r s FailureKindClientJSON
  | AuthError (rd : ReadResult) (req : RPCRequest) (authErr : error) :
      decodes D r rd req ->
      MethodRequiresWallet D (Method req) (Params req) = true ->
      GetAuthError D (ctx_user r) (ctx_auth_err r) = Some authErr ->
      FailurePath D r s FailureKindAuth
  | CallError (rd : ReadResult) (req : RPCRequest) (addr : string)
      (res : option RPCResponse) (e : error) :
      decodes D r rd req ->
      passes_gate D r req ->
      outcome (selectBackend r (ctx_user r)) (at_gate D s) = Returned addr ->
      Call D (callerFor D r (read_data rd) addr
                (callerUserID D req (ctx_user r))) req = (res, Some e) ->
      FailurePath D r s FailureKindNet
  | SerializationError (rd : ReadResult) (req : RPCRequest) (addr : string)
      (res : option RPCResponse) (partial : bytes) (e : error) :
      decodes D r rd req ->
      passes_gate D r req ->
      outcome (selectBackend r (ctx_user r)) (at_gate D s) = Returned addr ->
      Call D (callerFor D r (read_data rd) addr
                (callerUserID D req (ctx_user r))) req = (res, None) ->
      JSONRPCSerialize D res = (partial, Some e) ->
      FailurePath D r s FailureKindRPCJSON
  | BackendRPCError (rd : ReadResult) (req : RPCRequest) (addr : string)
      (res : RPCResponse) (serialized : bytes) (rpcErr : RPCError) :
      decodes D r rd req ->
      passes_gate D r req ->
      outcome (selectBackend r (ctx_user r)) (at_gate D s) = Returned addr ->
      Call D (callerFor D r (read_data rd) addr
                (callerUserID D req (ctx_user r))) req = (Some res, None) ->
      JSONRPCSerialize D (Some res) = (serialized, None) ->
      Error res = Some rpcErr ->
      FailurePath D r s FailureKindRPC.

(** ** A test double for the collaborators

    Stand-ins of the kind a handler test wires up: a decoder that knows
    two documents, a wallet classification by prefix, serializers that
    print a fixed envelope, and a backend that rejects [wallet_send]. *)
Module Demo.

#[global] Instance error_eq_dec : EqDecision error.
Proof. solve_decision. Defined.

Definition q : string := String "034"%char EmptyString.

Definition text (s : string) : bytes := list_byte_of_string s.

(** The document [{"method":"<m>"}]. *)
Definition doc (m : string) : bytes :=
  text ("{" +:+ q +:+ "method" +:+ q +:+ ":" +:+ q +:+ m +:+ q +:+ "}").

Definition request (m : string) : RPCRequest :=
  {| Method := m; Params := JNull; req_ID := 0; req_JSONRPC := "2.0" |}.

Definition decode (body : bytes) : error + RPCRequest :=
  if bytes_eqb body (doc "wallet_send") then inr (request "wallet_send")
  else if bytes_eqb body (doc "status") then inr (request "status")
  else inl (Foreign "invalid character").

(** The opening of an error envelope: [{"jsonrpc":"2.0","error":]. *)
Definition envelope_open : bytes :=
  text ("{" +:+ q +:+ "jsonrpc" +:+ q +:+ ":" +:+ q +:+ "2.0" +:+ q +:+ ","
        +:+ q +:+ "error" +:+ q +:+ ":").

Definition describe (e : error) : string :=
  match e with
  | Err m => m
  | ErrNoAuthInfo => "authentication token missing"
  | AuthRequiredError => "authentication required"
  | ForbiddenError _ => "forbidden"
  | JSONParseError _ => "parse error"
  | InternalError _ => "internal error"
  | Foreign d => d
  end.

Definition render (e : error) : bytes :=
  (envelope_open ++ text (q +:+ describe e +:+ q +:+ "}"))%list.

Definition serialize (res : option RPCResponse) : bytes * option error :=
  match res with
  | None => (null_literal, None)
  | Some x =>
      match Error x with
      | Some e => ((envelope_open ++ text (q +:+ Message e +:+ q +:+ "}"))%list,
                   None)
      | None => (text ("{" +:+ q +:+ "result" +:+ q +:+ ":null}"), None)
      end
  end.

Definition insufficient_funds : RPCError :=
  {| Code := -32500; Message := "insufficient funds"; Data := JNull |}.

Definition rejected : RPCResponse :=
  {| res_JSONRPC := "2.0"; Result := JNull;
     Error := Some insufficient_funds; res_ID := 0 |}.

Definition accepted : RPCResponse :=
  {| res_JSONRPC := "2.0"; Result := JNull; Error := None; res_ID := 0 |}.

Definition call (c : Caller) (req : RPCRequest)
  : option RPCResponse * option error :=
  if String.eqb (Method req) "wallet_send" then (Some rejected, None)
  else (Some accepted, None).

Definition deps : Deps :=
  {| MethodRequiresWallet := fun m _ => String.prefix "wallet_" m;
     MethodAcceptsWallet := fun m => String.prefix "wallet_" m;
     MethodWalletSend := "wallet_send";
     errors_Is := fun err target =>
       match err with
       | Some e => bool_decide (e = target)
       | None => false
       end;
     decodeRequest := decode;
     rpcerrors_JSON := render;
     rpcerrors_ErrorToJSON := render;
     rpcerrors_ToJSON := render;
     JSONRPCSerialize := serialize;
     InstallHooks := fun c => c;
     Call := call;
     TokenHeader := "X-Lbry-Auth-Token";
     JSONContentType := "application/json; charset=utf-8" |}.

Definition envelope (b : bytes) : Prop :=
  exists rest, b = (envelope_open ++ rest)%list.

Definition sdk_a : LbrynetServer := {| Address := "sdk-a:5279" |}.
Definition sdk_b : LbrynetServer := {| Address := "sdk-b:5279" |}.

Definition alice : User := {| ID := 7 |}.

(** An anonymous request: no user, and the no-auth-info error. *)
Definition anonymous (body : option ReadResult) : Request :=
  {| http_method := "POST"; Body := body;
     ctx_user := None; ctx_auth_err := Some ErrNoAuthInfo;
     ctx_router := {| servers := [sdk_a; sdk_b] |};
     ctx_cache := Some (CacheHandle 1);
     ctx_remote_ip := "203.0.113.9" |}.

Definition authenticated (body : option ReadResult) : Request :=
  with_user (anonymous body) (Some alice) None.


(** Alice is bound to a backend of her own; the random source shows 5. *)
Definition start : State :=
  initState {[ 7 := "sdk-sticky:5279" ]} 5.

(** Nobody is bound yet. *)
Definition fresh : State := initState ∅ 5.

End Demo.

(** * The reporter HTTP server

    The generated server of the watchman reporter service: handler
    construction, the CORS wrapper with its origin pattern, and mounting
    on the mux. *)
Module Reporter.

(** ** Origins and the regular expression [spec0] *)

Definition byte_of (c : ascii) : N := N_of_ascii c.

(** [utf8.DecodeRune]: the number of bytes of the rune at the start of a
    non-empty input.  An invalid or truncated encoding is the error rune,
    one byte wide. *)
Definition in_range (lo hi : N) (c : ascii) : bool :=
  ((lo <=? byte_of c) && (byte_of c <=? hi))%N.

Definition rune_width (s : string) : nat :=
  match s with
  | EmptyString => 0
  | String b0 rest =>
      let n0 := byte_of b0 in
      if (n0 <? 128)%N then 1                                  (* ASCII *)
      else if ((n0 <? 194) || (244 <? n0))%N then 1            (* invalid lead *)
      else
        let '(sz, lo, hi) :=
          if (n0 <? 224)%N then (2%nat, 128%N, 191%N)                  (* C2..DF *)
          else if (n0 =? 224)%N then (3%nat, 160%N, 191%N)             (* E0 *)
          else if (n0 =? 237)%N then (3%nat, 128%N, 159%N)             (* ED *)
          else if (n0 <? 240)%N then (3%nat, 128%N, 191%N)             (* E1..EF *)
          else if (n0 =? 240)%N then (4%nat, 144%N, 191%N)             (* F0 *)
          else if (n0 =? 244)%N then (4%nat, 128%N, 143%N)             (* F4 *)
          else (4%nat, 128%N, 191%N) in                              (* F1..F3 *)
        if (String.length s <? sz)%nat then 1
        else
          match rest with
          | String b1 rest1 =>
              if negb (in_range lo hi b1) then 1
              else if (sz <=? 2)%nat then 2
              else match rest1 with
                   | String b2 rest2 =>
                       if negb (in_range 128 191 b2) then 1
                       else if (sz <=? 3)%nat then 3
                       else match rest2 with
                            | String b3 _ =>
                                if negb (in_range 128 191 b3) then 1 else 4
                            | EmptyString => 1
                            end
                   | EmptyString => 1
                   end
          | EmptyString => 1
          end
  end.

Fixpoint drop_bytes (n : nat) (s : string) : string :=
  match n, s with
  | S n', String _ s' => drop_bytes n' s'
  | _, _ => s
  end.

Inductive atom : Type :=
  | Lit (c : ascii)       (* a literal ASCII character *)
  | AnyNotNL              (* [.] : any rune but the newline *)
  | Digit.                (* [\d] : 0 to 9 *)

Inductive regex : Type :=
  | Str (lit : string)    (* a run of literal ASCII characters *)
  | One (a : atom)
  | Plus (a : atom)       (* [a+] *)
  | Cat (r1 r2 : regex)
  | Alt (r1 r2 : regex).

Definition is_digit (c : ascii) : bool := in_range 48 57 c.

(** One rune of input against an atom: the input that is left. *)
Definition step (a : atom) (s : string) : option string :=
  match s with
  | EmptyString => None
  | String c rest =>
      match a with
      | Lit x => if Ascii.eqb c x then Some rest else None
      | Digit => if is_digit c then Some rest else None
      | AnyNotNL =>
          if Ascii.eqb c "010"%char then None
          else Some (drop_bytes (rune_width s) s)
      end
  end.

Fixpoint strip (lit s : string) : option string :=
  match lit with
  | EmptyString => Some s
  | String x lit' =>
      match s with
      | String c rest => if Ascii.eqb c x then strip lit' rest else None
      | EmptyString => None
      end
  end.

(** [a+] followed by [k]: one or more steps, [k] tried after each.  Every
    step consumes a byte, so the length of the input bounds the loop. *)
Fixpoint plus_loop (fuel : nat) (a : atom) (s : string)
    (k : string -> bool) : bool :=
  match fuel with
  | O => false
  | S fuel' =>
      match step a s with
      | Some s' => k s' || plus_loop fuel' a s' k
      | None => false
      end
  end.

(** Does a prefix of [s] match [r], with [k] accepting what is left? *)
Fixpoint match_here (r : regex) (s : string) (k : string -> bool) : bool :=
  match r with
  | Str lit => match strip lit s with Some s' => k s' | None => false end
  | One a => match step a s with Some s' => k s' | None => false end
  | Plus a => plus_loop (String.length s) a s k
  | Cat r1 r2 => match_here r1 s (fun s' => match_here r2 s' k)
  | Alt r1 r2 => match_here r1 s k || match_here r2 s k
  end.

(** [Regexp.Match]: an unanchored search, trying each rune position from
    the left. *)
Fixpoint search (fuel : nat) (r : regex) (s : string) : bool :=
  match_here r s (fun _ => true) ||
  match fuel with
  | O => false
  | S fuel' =>
      match s with
      | EmptyString => false
      | _ => search fuel' r (drop_bytes (rune_width s) s)
      end
  end.

Definition Match (r : regex) (s : string) : bool :=
  search (String.length s) r s.

(** [(http:\/\/localhost:\d+)|(https:\/\/odysee.com)|(https:\/\/.+\.odysee.com)|(https:\/\/.+\.lbry.tv)] *)
Definition spec0 : regex :=
  Alt (Cat (Str "http://localhost:") (Plus Digit))
 (Alt (Cat (Str "https://odysee") (Cat (One AnyNotNL) (Str "com")))
 (Alt (Cat (Str "https://")
        (Cat (Plus AnyNotNL)
          (Cat (Str ".odysee") (Cat (One AnyNotNL) (Str "com")))))
      (Cat (Str "https://")
        (Cat (Plus AnyNotNL)
          (Cat (Str ".lbry") (Cat (One AnyNotNL) (Str "tv"))))))).

(** [cors.MatchOriginRegexp(origin, spec0)]. *)
Definition MatchOriginRegexp (origin : string) : bool := Match spec0 origin.



Fixpoint no_newline (s : string) : bool :=
  match s with
  | EmptyString => true
  | String c rest => negb (Ascii.eqb c "010"%char) && no_newline rest
  end.

(** ** Requests, handlers and the mux *)

(** The part of [*http.Request] the generated server reads: the header
    map, keyed by canonical names as [net/http] stores it. *)
Record HttpRequest : Type := { req_header : gmap string (list string) }.

(** [r.Header.Get(key)] for a canonical key: the first value, or the
    empty string. *)
Definition Header_Get (r : HttpRequest) (key : string) : string :=
  match req_header r !! key with
  | Some (v :: _) => v
  | _ => ""
  end.

(** The values the handlers put into the request context. *)
Record Ctx : Type := {
  AcceptTypeKey : string;
  MethodKey : string;
  ServiceKey : string
}.

(** [MountPoint]. *)
Record MountPoint : Type := {
  mp_Method : string;
  Verb : string;
  Pattern : string
}.

(** The dynamic type of an interface value as the runtime names it: the
    type's string, such as [main.other], and its package path. *)
Record DynType : Type := {
  type_string : string;
  pkg_path : string
}.

(** The text of the [runtime.TypeAssertionError] that a failed
    [h.(http.HandlerFunc)] panics with, for a handler of concrete type
    [t], or for a nil interface value, which has no concrete type.  The
    message names the interface, the concrete type and the asserted
    type, with a note when the two type strings are the same. *)
Definition interface_conversion (concrete : option DynType) : string :=
  match concrete with
  | None => "interface conversion: http.Handler is nil, not http.HandlerFunc"
  | Some t =>
      let msg := "interface conversion: http.Handler is " +:+ type_string t
                 +:+ ", not http.HandlerFunc" in
      if String.eqb (type_string t) "http.HandlerFunc"
      then if String.eqb (pkg_path t) "net/http"
           then msg +:+ " (types from different scopes)"
           else msg +:+ " (types from different packages)"
      else msg
  end.

Section Server.

(** The payload a request decodes to and the result of an endpoint, both
    [interface{}] in the source. *)
Context {Payload Res : Type}.

(** Calls to the collaborators, in order. *)
Inductive Effect : Type :=
  | Decoded (r : HttpRequest)
  | EndpointCalled (ctx : Ctx) (payload : option Payload)
  | ResponseEncoded (ctx : Ctx) (res : Res)
  | ErrorEncoded (ctx : Ctx) (err : error)
  | ErrHandled (ctx : Ctx) (err : error).

Record RState : Type := {
  rsp : ResponseWriter;
  effects : list Effect
}.

Definition RM (A : Type) : Type := RState -> Outcome A * RState.

#[global] Instance RM_ret : MRet RM := fun A a s => (Returned a, s).
#[global] Instance RM_bind : MBind RM := fun A B f m s =>
  match m s with
  | (Returned a, s') => f a s'
  | (Panicked msg, s') => (Panicked msg, s')
  end.

Definition rpanic {A} (msg : string) : RM A := fun s => (Panicked msg, s).

Definition note (e : Effect) : RM unit :=
  fun s => (Returned tt, {| rsp := rsp s; effects := effects s ++ [e] |}).

Definition on_writer (f : ResponseWriter -> ResponseWriter) : RM unit :=
  fun s => (Returned tt, {| rsp := f (rsp s); effects := effects s |}).

Definition via_writer {A} (f : ResponseWriter -> ResponseWriter * A) : RM A :=
  fun s => let '(w', a) := f (rsp s) in
           (Returned a, {| rsp := w'; effects := effects s |}).

(** [w.Header().Set(k, v)] and [w.WriteHeader(code)]. *)
Definition Header_Set (k v : string) : RM unit :=
  on_writer (fun w => {| Header := <[k := [v]]> (Header w);
                         wroteHeader := wroteHeader w;
                         written := written w |}).

Definition WriteHeader (code : Z) : RM unit := on_writer (send_header code).

(** [func(w http.ResponseWriter, r *http.Request)]; the writer is in the
    state. *)
Definition HFun : Type := HttpRequest -> RM unit.

(** An [http.Handler] with its dynamic type: an [http.HandlerFunc], a
    value of some other type [t] with a [ServeHTTP] method, or the nil
    interface value. *)
Inductive Handler : Type :=
  | HandlerFunc (f : HFun)
  | OtherHandler (t : DynType) (serve : HFun)
  | NilHandler.

(** [h.ServeHTTP(w, r)]; on the nil interface value the call is a nil
    dereference. *)
Definition ServeHTTP (h : Handler) : HFun :=
  match h with
  | HandlerFunc f => f
  | OtherHandler _ serve => serve
  | NilHandler => fun _ => rpanic nil_dereference
  end.

(** The concrete type that a failed assertion on [h] reports. *)
Definition concrete_type (h : Handler) : option DynType :=
  match h with
  | HandlerFunc _ =>
      Some {| type_string := "http.HandlerFunc"; pkg_path := "net/http" |}
  | OtherHandler t _ => Some t
  | NilHandler => None
  end.

(** [goa.Endpoint]. *)
Definition Endpoint : Type := Ctx -> option Payload -> error + Res.

Definition Encoder (A : Type) : Type :=
  Ctx -> ResponseWriter -> A -> ResponseWriter * option error.

Definition ErrHandler : Type := Ctx -> ResponseWriter -> error -> ResponseWriter.

(** What [DecodeAddRequest], [EncodeAddResponse], [EncodeAddError],
    [EncodeHealthzResponse] and [goahttp.ErrorEncoder] return for the mux,
    decoder, encoder and formatter given to [New]; they live in other
    files of the package. *)
Record Codecs : Type := {
  DecodeAddRequest : HttpRequest -> error + Payload;
  EncodeAddResponse : Encoder Res;
  EncodeAddError : Encoder error;
  EncodeHealthzResponse : Encoder Res;
  ErrorEncoder : Encoder error
}.

(** [reporter.Endpoints]. *)
Record Endpoints : Type := {
  e_Add : Endpoint;
  e_Healthz : Endpoint
}.

Definition call_decode (decodeRequest : HttpRequest -> error + Payload)
    (r : HttpRequest) : RM (error + Payload) :=
  note (Decoded r) ;; mret (decodeRequest r).

Definition call_endpoint (endpoint : Endpoint) (ctx : Ctx)
    (payload : option Payload) : RM (error + Res) :=
  note (EndpointCalled ctx payload) ;; mret (endpoint ctx payload).

Definition call_encodeResponse (enc : Encoder Res) (ctx : Ctx) (res : Res)
  : RM (option error) :=
  note (ResponseEncoded ctx res) ;;
  via_writer (fun w => enc ctx w res).

Definition call_encodeError (enc : Encoder error) (ctx : Ctx) (e : error)
  : RM (option error) :=
  note (ErrorEncoded ctx e) ;;
  via_writer (fun w => enc ctx w e).

(** [errhandler(ctx, w, err)]; calling a nil function panics. *)
Definition call_errhandler (errhandler : option ErrHandler) (ctx : Ctx)
    (e : error) : RM unit :=
  match errhandler with
  | Some f => note (ErrHandled ctx e) ;; on_writer (fun w => f ctx w e)
  | None => rpanic nil_dereference
  end.

(** [if err := encode...(ctx, w, x); err != nil { errhandler(ctx, w, err) }] *)
Definition or_errhandler (errhandler : option ErrHandler) (ctx : Ctx)
    (encoded : RM (option error)) : RM unit :=
  err ← encoded;
  match err with
  | Some e => call_errhandler errhandler ctx e
  | None => mret tt
  end.

Definition request_ctx (r : HttpRequest) (method : string) : Ctx :=
  {| AcceptTypeKey := Header_Get r "Accept";
     MethodKey := method;
     ServiceKey := "reporter" |}.

(** [NewAddHandler]. *)
Definition NewAddHandler (endpoint : Endpoint)
    (decodeRequest : HttpRequest -> error + Payload)
    (encodeResponse : Encoder Res) (encodeError : Encoder error)
    (errhandler : option ErrHandler) : Handler :=
  HandlerFunc (fun r =>
    let ctx := request_ctx r "add" in
    payload ← call_decode decodeRequest r;
    match payload with
    | inl err =>
        or_errhandler errhandler ctx (call_encodeError encodeError ctx err)
    | inr payload =>
        res ← call_endpoint endpoint ctx (Some payload);
        match res with
        | inl err =>
            or_errhandler errhandler ctx
              (call_encodeError encodeError ctx err)
        | inr res =>
            or_errhandler errhandler ctx
              (call_encodeResponse encodeResponse ctx res)
        end
    end).

(** [NewHealthzHandler]. *)
Definition NewHealthzHandler (endpoint : Endpoint)
    (encodeResponse : Encoder Res) (encodeError : Encoder error)
    (errhandler : option ErrHandler) : Handler :=
  HandlerFunc (fun r =>
    let ctx := request_ctx r "healthz" in
    res ← call_endpoint endpoint ctx None;
    match res with
    | inl err =>
        or_errhandler errhandler ctx (call_encodeError encodeError ctx err)
    | inr res =>
        or_errhandler errhandler ctx
          (call_encodeResponse encodeResponse ctx res)
    end).

(** [NewCORSHandler]. *)
Definition NewCORSHandler : Handler :=
  HandlerFunc (fun r => WriteHeader 200).

(** [HandleReporterOrigin].  The type assertion [h.(http.HandlerFunc)]
    runs when the handler is wrapped, and panics on any other dynamic
    type. *)
Definition HandleReporterOrigin (h : Handler) : Outcome Handler :=
  match h with
  | OtherHandler t _ => Panicked (interface_conversion (Some t))
  | NilHandler => Panicked (interface_conversion None)
  | HandlerFunc origHndlr =>
      Returned (HandlerFunc (fun r =>
        let origin := Header_Get r "Origin" in
        if String.eqb origin "" then origHndlr r
        else if MatchOriginRegexp origin then
          Header_Set "Access-Control-Allow-Origin" origin ;;
          Header_Set "Vary" "Origin" ;;
          Header_Set "Access-Control-Max-Age" "600" ;;
          (let acrm := Header_Get r "Access-Control-Request-Method" in
           if negb (String.eqb acrm "") then
             Header_Set "Access-Control-Allow-Methods" "GET, POST" ;;
             Header_Set "Access-Control-Allow-Headers" "content-type"
           else mret tt) ;;
          origHndlr r
        else origHndlr r))
  end.

(** [Server], [New], [Service] and [Use]. *)
Record Server : Type := {
  Mounts : list MountPoint;
  Add : Handler;
  Healthz : Handler;
  CORS : Handler
}.

Definition New (e : Endpoints) (c : Codecs) (errhandler : option ErrHandler)
  : Server :=
  {| Mounts :=
       [ {| mp_Method := "Add"; Verb := "POST"; Pattern := "/reports/playback" |};
         {| mp_Method := "Healthz"; Verb := "GET"; Pattern := "/healthz" |};
         {| mp_Method := "CORS"; Verb := "OPTIONS";
            Pattern := "/reports/playback" |};
         {| mp_Method := "CORS"; Verb := "OPTIONS"; Pattern := "/healthz" |} ];
     Add := NewAddHandler (e_Add e) (DecodeAddRequest c)
              (EncodeAddResponse c) (EncodeAddError c) errhandler;
     Healthz := NewHealthzHandler (e_Healthz e) (EncodeHealthzResponse c)
                  (ErrorEncoder c) errhandler;
     CORS := NewCORSHandler |}.

Definition Service (s : Server) : string := "reporter".

Definition Use (s : Server) (m : Handler -> Handler) : Server :=
  {| Mounts := Mounts s;
     Add := m (Add s);
     Healthz := m (Healthz s);
     CORS := m (CORS s) |}.

(** The mux records what [mux.Handle(verb, pattern, f)] registered, in
    order. *)
Record Route : Type := {
  route_verb : string;
  route_pattern : string;
  route_handler : HFun
}.

Definition Muxer : Type := list Route.

Definition mux_Handle (mux : Muxer) (verb pattern : string) (f : HFun)
  : Muxer :=
  (mux ++ [ {| route_verb := verb; route_pattern := pattern;
               route_handler := f |} ])%list.

(** [f, ok := h.(http.HandlerFunc)]: the function when the dynamic type
    is [http.HandlerFunc]. *)
Definition assert_HandlerFunc (h : Handler) : option HFun :=
  match h with
  | HandlerFunc f => Some f
  | OtherHandler _ _ | NilHandler => None
  end.

(** [MountAddHandler].  When the assertion on the wrapped handler fails,
    the fallback serves the handler that was passed in. *)
Definition MountAddHandler (mux : Muxer) (h : Handler)
  : Outcome unit * Muxer :=
  match HandleReporterOrigin h with
  | Panicked msg => (Panicked msg, mux)
  | Returned wrapped =>
      let f := match assert_HandlerFunc wrapped with
               | Some f => f
               | None => fun r => ServeHTTP h r
               end in
      (Returned tt, mux_Handle mux "POST" "/reports/playback" f)
  end.

(** [MountHealthzHandler]. *)
Definition MountHealthzHandler (mux : Muxer) (h : Handler)
  : Outcome unit * Muxer :=
  match HandleReporterOrigin h with
  | Panicked msg => (Panicked msg, mux)
  | Returned wrapped =>
      let f := match assert_HandlerFunc wrapped with
               | Some f => f
               | None => fun r => ServeHTTP h r
               end in
      (Returned tt, mux_Handle mux "GET" "/healthz" f)
  end.

(** [MountCORSHandler]: [h] is reassigned to the wrapped handler, which
    is also what the fallback serves. *)
Definition MountCORSHandler (mux : Muxer) (h : Handler)
  : Outcome unit * Muxer :=
  match HandleReporterOrigin h with
  | Panicked msg => (Panicked msg, mux)
  | Returned h =>
      let f := match assert_HandlerFunc h with
               | Some f => f
               | None => fun r => ServeHTTP h r
               end in
      (Returned tt,
       mux_Handle (mux_Handle mux "OPTIONS" "/reports/playback" f)
         "OPTIONS" "/healthz" f)
  end.

(** [Mount]: the three mounts in turn; a panic leaves the mux with what
    was registered before it. *)
Definition Mount (mux : Muxer) (h : Server) : Outcome unit * Muxer :=
  match MountAddHandler mux (Add h) with
  | (Panicked msg, mux) => (Panicked msg, mux)
  | (Returned _, mux) =>
      match MountHealthzHandler mux (Healthz h) with
      | (Panicked msg, mux) => (Panicked msg, mux)
      | (Returned _, mux) => MountCORSHandler mux (CORS h)
      end
  end.

(** The effects a handler run adds. *)
Definition noted (m : RM unit) (s : RState) : list Effect :=
  drop (length (effects s)) (effects (m s).2).

Definition is_endpoint_call (e : Effect) : bool :=
  match e with EndpointCalled _ _ => true | _ => false end.

Definition is_encoding (e : Effect) : bool :=
  match e with ResponseEncoded _ _ | ErrorEncoded _ _ => true | _ => false end.

Definition is_errhandled (e : Effect) : bool :=
  match e with ErrHandled _ _ => true | _ => false end.

Definition is_HandlerFunc (h : Handler) : bool :=
  match h with
  | HandlerFunc _ => true
  | OtherHandler _ _ | NilHandler => false
  end.

(** Verb and pattern of a registered route, and of a declared mount. *)
Definition route_key (rt : Route) : string * string :=
  (route_verb rt, route_pattern rt).

Definition mount_key (mp : MountPoint) : string * string :=
  (Verb mp, Pattern mp).

End Server.

Definition freshState {Payload Res : Type} : @RState Payload Res :=
  {| rsp := newResponseWriter; effects := [] |}.

Definition with_headers (hs : list (string * string)) : HttpRequest :=
  {| req_header := list_to_map (map (fun kv => (kv.1, [kv.2])) hs) |}.

End Reporter.

(** ** More test doubles *)
Module Doubles.

Definition with_Call (D : Deps)
    (call : Caller -> RPCRequest -> option RPCResponse * option error) : Deps :=
  {| MethodRequiresWallet := MethodRequiresWallet D;
     MethodAcceptsWallet := MethodAcceptsWallet D;
     MethodWalletSend := MethodWalletSend D;
     errors_Is := errors_Is D;
     decodeRequest := decodeRequest D;
     rpcerrors_JSON := rpcerrors_JSON D;
     rpcerrors_ErrorToJSON := rpcerrors_ErrorToJSON D;
     rpcerrors_ToJSON := rpcerrors_ToJSON D;
     JSONRPCSerialize := JSONRPCSerialize D;
     InstallHooks := InstallHooks D;
     Call := call;
     TokenHeader := TokenHeader D;
     JSONContentType := JSONContentType D |}.

Definition with_Serialize (D : Deps)
    (ser : option RPCResponse -> bytes * option error) : Deps :=
  {| MethodRequiresWallet := MethodRequiresWallet D;
     MethodAcceptsWallet := MethodAcceptsWallet D;
     MethodWalletSend := MethodWalletSend D;
     errors_Is := errors_Is D;
     decodeRequest := decodeRequest D;
     rpcerrors_JSON := rpcerrors_JSON D;
     rpcerrors_ErrorToJSON := rpcerrors_ErrorToJSON D;
     rpcerrors_ToJSON := rpcerrors_ToJSON D;
     JSONRPCSerialize := ser;
     InstallHooks := InstallHooks D;
     Call := Call D;
     TokenHeader := TokenHeader D;
     JSONContentType := JSONContentType D |}.

Definition refused : error := Foreign "connection refused".
Definition unsupported : error := Foreign "json: unsupported value".

(** The backend is down. *)
Definition down : Deps :=
  with_Call Demo.deps (fun _ _ => (None, Some refused)).

(** The response cannot be serialized. *)
Definition unserializable : Deps :=
  with_Serialize Demo.deps (fun _ => ([], Some unsupported)).

(** A reporter wiring over string payloads and results: the decoder
    wants a JSON content type, the endpoints answer [ok], and the
    encoders cannot write. *)
Definition broken_pipe : error := Foreign "write: broken pipe".

Definition decode_report (r : Reporter.HttpRequest) : error + string :=
  if String.eqb (Reporter.Header_Get r "Content-Type") "application/json"
  then inr "report"
  else inl (Foreign "invalid content type").

Definition failing {A} : @Reporter.Encoder A :=
  fun _ w _ => (w, Some broken_pipe).

Definition codecs : @Reporter.Codecs string string :=
  {| Reporter.DecodeAddRequest := decode_report;
     Reporter.EncodeAddResponse := failing;
     Reporter.EncodeAddError := failing;
     Reporter.EncodeHealthzResponse := failing;
     Reporter.ErrorEncoder := failing |}.

Definition endpoints : @Reporter.Endpoints string string :=
  {| Reporter.e_Add := fun _ _ => inr "ok";
     Reporter.e_Healthz := fun _ _ => inr "ok" |}.

Definition answer_500 : Reporter.ErrHandler :=
  fun _ w _ => send_header 500 w.

End Doubles.

Ltac unfold_monad :=
  unfold mbind, mret, M_bind, M_ret in *.

Ltac unfold_effects :=
  unfold AddJSONContentType, observeFailure, observeSuccess, Logf,
    NewCaller, AddPostflightHook, lbrynext_InstallHooks, Caller_Call,
    Header_Set, WriteHeader, Write, deref, emit, with_rw, modify,
    get_state, panic in *;
  unfold_monad.

Lemma written_send_header (code : Z) (w : ResponseWriter) :
  written (send_header code w) = written w.
Proof. unfold send_header. destruct (wroteHeader w); reflexivity. Qed.

Lemma Header_send_header (code : Z) (w : ResponseWriter) :
  Header (send_header code w) = Header w.
Proof. unfold send_header. destruct (wroteHeader w); reflexivity. Qed.

Lemma drop_length_app {A} (l k : list A) : drop (length l) (l ++ k) = k.
Proof. induction l; simpl; auto. Qed.

Section Runs.

Context (D : Deps).

(** Backend selection changes nothing but the random source. *)
Lemma selectBackend_run (r : Request) (user : option User) (s : State) :
  selectBackend r user s = (outcome (selectBackend r user) s, selected r user s).
Proof.
  unfold selected, rand_after, outcome, final, selectBackend, GetSDKAddress,
    RandomServer, set_rand_source.
  unfold_effects. simpl.
  destruct (String.eqb _ ""); [|destruct s; reflexivity].
  destruct (servers (sdkrouter_FromRequest r)) as [|x l];
    [destruct s; reflexivity|]. simpl.
  destruct ((x :: l) !! _); reflexivity.
Qed.

Lemma buildCaller_run (r : Request) (body : bytes) (addr : string) (uid : Z)
    (s : State) :
  buildCaller D r body addr uid s =
    (Returned (callerFor D r body addr uid),
     {| rw := rw s;
        trace := trace s ++
          [EvNewCaller addr uid;
           EvAddPostflightHook {| hook_pattern := "wallet_";
                                  hook_handler := LogRemoteIP (ctx_remote_ip r);
                                  hook_builder := "" |};
           EvAddPostflightHook {| hook_pattern := MethodWalletSend D;
                                  hook_handler :=
                                    AuditWalletSend uid (ctx_remote_ip r) body;
                                  hook_builder := "" |};
           EvInstallHooks];
        bindings := bindings s; rand_source := rand_source s |}).
Proof.
  unfold buildCaller, callerFor, cache_IsOnRequest, cache_FromRequest,
    ip_FromRequest.
  unfold_effects. simpl. rewrite <- !app_assoc. simpl.
  destruct (ctx_cache r); reflexivity.
Qed.

End Runs.

(** Case analysis along the branches of a handler run. *)
Ltac crunch :=
  repeat (simpl in *;
          match goal with
          | |- context [selectBackend ?r ?u ?s] =>
              rewrite (selectBackend_run r u s)
          | |- context [buildCaller ?D ?r ?b ?a ?u ?s] =>
              rewrite (buildCaller_run D r b a u s)
          | |- context [match ?x with _ => _ end] =>
              lazymatch x with
              | context [match _ with _ => _ end] => fail
              | _ => destruct x eqn:?
              end
          end).

Ltac tidy_trace :=
  unfold added, final; simpl; rewrite <- ?app_assoc; simpl;
  rewrite ?drop_length_app; simpl.

Section Observations.

Context (D : Deps).

(** Every run of [Handle] that returns has made one overall observation,
    and at most one failure observation, which carries the same method
    and address labels. *)
Theorem Handle_returned_observes_once (r : Request) (s : State) :
  outcome (Handle D r) s = Returned tt ->
  exists m a,
    keep is_overall (added (Handle D r) s) = [EvObserveDuration m a] /\
    (keep is_failed (added (Handle D r) s) = [] \/
     exists k, keep is_failed (added (Handle D r) s)
                 = [EvObserveFailedDuration m a k]).
Proof.
  unfold outcome, keep, added, final, Handle, forward, respond.
  unfold_effects.
  crunch; intros H; try discriminate H; tidy_trace; eauto 6.
Qed.

End Observations.

(** ** Sample runs against the test double *)

Example run_status_anonymous :
  let run := Handle Demo.deps (Demo.anonymous (readable (Demo.doc "status"))) in
  outcome run Demo.fresh = Returned tt /\
  written (rw (final run Demo.fresh)) = (Demo.serialize (Some Demo.accepted)).1 /\
  keep is_overall (added run Demo.fresh)
    = [EvObserveDuration "status" "sdk-b:5279"] /\
  keep is_failed (added run Demo.fresh) = [].
Proof. vm_compute. repeat split. Qed.

Example run_empty_body :
  let run := Handle Demo.deps (Demo.anonymous None) in
  outcome run Demo.fresh = Returned tt /\
  fst <$> wroteHeader (rw (final run Demo.fresh)) = Some StatusBadRequest /\
  written (rw (final run Demo.fresh))
    = Demo.render (JSONParseError (Err "empty request body")) /\
  added run Demo.fresh
    = [EvObserveDuration "" ""; EvObserveFailedDuration "" "" FailureKindClient;
       EvLog Debug "empty request body"].
Proof. vm_compute. repeat split. Qed.

Example run_wallet_send_authenticated :
  let run := Handle Demo.deps
               (Demo.authenticated (readable (Demo.doc "wallet_send"))) in
  keep caller_event (added run Demo.start)
    = [EvNewCaller "sdk-sticky:5279" 7;
       EvAddPostflightHook
         {| hook_pattern := "wallet_";
            hook_handler := LogRemoteIP "203.0.113.9";
            hook_builder := "" |};
       EvAddPostflightHook
         {| hook_pattern := "wallet_send";
            hook_handler :=
              AuditWalletSend 7 "203.0.113.9" (Demo.doc "wallet_send");
            hook_builder := "" |};
       EvInstallHooks;
       EvCall (callerFor Demo.deps
                 (Demo.authenticated (readable (Demo.doc "wallet_send")))
                 (Demo.doc "wallet_send") "sdk-sticky:5279" 7)
              (Demo.request "wallet_send")].
Proof. vm_compute. reflexivity. Qed.

Example null_with_white_space :
  is_json_null (Demo.text "  null ") = true /\
  is_json_null (Demo.doc "status") = false.
Proof. split; reflexivity. Qed.

(** ** The paths through [Handle] *)

Section Paths.

Context (D : Deps).

Lemma Handle_decoded (r : Request) (rd : ReadResult) (req : RPCRequest)
    (s : State) :
  decodes D r rd req -> passes_gate D r req ->
  Handle D r s = forward D r (read_data rd) req (ctx_user r) (at_gate D s).
Proof.
  intros (HB & Hrd & Hdec) Hgate. unfold Handle, at_gate. unfold_effects.
  rewrite HB, Hrd, Hdec. simpl.
  unfold passes_gate in Hgate.
  destruct (MethodRequiresWallet D (Method req) (Params req)); [|reflexivity].
  rewrite (Hgate eq_refl). reflexivity.
Qed.

Lemma forward_selected (r : Request) (body : bytes) (req : RPCRequest)
    (user : option User) (addr : string) (s : State) :
  outcome (selectBackend r user) s = Returned addr ->
  forward D r body req user s =
    (let c := callerFor D r body addr (callerUserID D req user) in
     respond D req addr (Call D c req).1 (Call D c req).2
       (after_call D r body req addr (callerUserID D req user)
          (selected r user s))).
Proof.
  intros Hsel. unfold forward, after_call. unfold_monad.
  rewrite selectBackend_run, Hsel, buildCaller_run.
  unfold Caller_Call. unfold_effects. simpl.
  destruct (Call D _ req) as [rpcRes err]. simpl.
  rewrite <- !app_assoc. reflexivity.
Qed.

Lemma forward_unselected (r : Request) (body : bytes) (req : RPCRequest)
    (user : option User) (msg : string) (s : State) :
  outcome (selectBackend r user) s = Panicked msg ->
  forward D r body req user s = (Panicked msg, selected r user s).
Proof.
  intros Hsel. unfold forward. unfold_monad.
  rewrite selectBackend_run, Hsel. reflexivity.
Qed.

End Paths.

(** ** The auth gate *)

Section AuthGate.

Context (D : Deps).

Ltac case_is :=
  try match goal with
      | |- context [errors_Is D ?x ErrNoAuthInfo] =>
          destruct (errors_Is D x ErrNoAuthInfo)
      end.

Lemma GetAuthError_nil_iff (user : option User) (err : option error) :
  GetAuthError D user err = None <-> err = None /\ user <> None.
Proof.
  unfold GetAuthError.
  destruct err as [e|], user as [u|]; simpl;
    case_is; split; intros H;
    try discriminate H; try (destruct H; congruence);
    try (split; congruence).
Qed.

(** C5. [GetAuthError] sorts an auth outcome into three cases: a resolved
    user with no error gives nil; an error that is [auth.ErrNoAuthInfo]
    (as [errors.Is] matches it) gives the auth-required error; any other
    non-nil error, and a nil user without the no-auth-info error, gives a
    forbidden error.  No other result occurs among these cases. *)
Theorem GetAuthError_three_cases (user : option User) (err : option error) :
  (forall u, user = Some u -> err = None -> GetAuthError D user err = None) /\
  (forall e, err = Some e -> errors_Is D err ErrNoAuthInfo = true ->
     GetAuthError D user err = Some AuthRequiredError) /\
  (forall e, err = Some e -> errors_Is D err ErrNoAuthInfo = false ->
     GetAuthError D user err = Some (ForbiddenError e)) /\
  (user = None -> errors_Is D err ErrNoAuthInfo = false ->
     exists cause, GetAuthError D user err = Some (ForbiddenError cause)) /\
  (GetAuthError D user err = None \/
   GetAuthError D user err = Some AuthRequiredError \/
   exists cause, GetAuthError D user err = Some (ForbiddenError cause)).
Proof.
  unfold GetAuthError. repeat split.
  - intros u -> ->. reflexivity.
  - intros e -> ->. reflexivity.
  - intros e -> ->. reflexivity.
  - intros -> ->. destruct err; simpl; eauto.
  - destruct err as [e|], user as [u|]; simpl;
      case_is; eauto.
Qed.

(** C9. [GetAuthError] returns nil exactly when the resolution error is
    nil and the user is not; on every other input it returns the
    auth-required or a forbidden error, so the closing
    [unknown auth error] is returned on no input. *)
Theorem GetAuthError_fallback_unreachable
    (user : option User) (err : option error) :
  (GetAuthError D user err = None <-> err = None /\ user <> None) /\
  (~ (err = None /\ user <> None) ->
     GetAuthError D user err = Some AuthRequiredError \/
     exists cause, GetAuthError D user err = Some (ForbiddenError cause)) /\
  GetAuthError D user err <> Some (Err "unknown auth error").
Proof.
  split; [apply GetAuthError_nil_iff|]. split.
  - intros Hn. unfold GetAuthError.
    destruct err as [e|], user as [u|]; simpl;
      case_is; eauto.
    all: exfalso; apply Hn; split; congruence.
  - unfold GetAuthError.
    destruct err as [e|], user as [u|]; simpl;
      case_is; discriminate.
Qed.

(** C1. A wallet-required method with missing or invalid credentials:
    [Handle] writes the auth error and returns.  What it adds to the trace
    is the method log line and the two observations; no Caller is
    constructed, no hook registered and no call made. *)
Theorem Handle_auth_error_terminal
    (r : Request) (s : State) (rd : ReadResult) (req : RPCRequest) :
  decodes D r rd req ->
  MethodRequiresWallet D (Method req) (Params req) = true ->
  ctx_auth_err r <> None \/ ctx_user r = None ->
  exists authErr,
    GetAuthError D (ctx_user r) (ctx_auth_err r) = Some authErr /\
    outcome (Handle D r) s = Returned tt /\
    written (rw (final (Handle D r) s)) =
      (written (rw s) ++ rpcerrors_ErrorToJSON D authErr)%list /\
    added (Handle D r) s =
      [EvLog Trace "call to method %s";
       EvObserveDuration (Method req) "";
       EvObserveFailedDuration (Method req) "" FailureKindAuth] /\
    keep caller_event (added (Handle D r) s) = [].
Proof.
  intros (HB & Hrd & Hdec) Hreq Hcred.
  destruct (GetAuthError D (ctx_user r) (ctx_auth_err r)) as [authErr|] eqn:HA.
  2:{ apply GetAuthError_nil_iff in HA. tauto. }
  exists authErr. split; [reflexivity|].
  unfold outcome, added, final, Handle. unfold_effects.
  rewrite HB, Hrd, Hdec. simpl. rewrite Hreq, HA. simpl.
  rewrite written_send_header, <- !app_assoc, drop_length_app. simpl.
  repeat split.
Qed.

End AuthGate.

Lemma Handle_auth_error_terminal_witness :
  written (rw (final
    (Handle Demo.deps (Demo.anonymous (readable (Demo.doc "wallet_send"))))
    Demo.fresh)) = Demo.render AuthRequiredError /\
  keep caller_event (added
    (Handle Demo.deps (Demo.anonymous (readable (Demo.doc "wallet_send"))))
    Demo.fresh) = [].
Proof.
  destruct (Handle_auth_error_terminal Demo.deps
              (Demo.anonymous (readable (Demo.doc "wallet_send")))
              Demo.fresh
              {| read_data := Demo.doc "wallet_send"; read_err := None |}
              (Demo.request "wallet_send"))
    as (authErr & HA & _ & Hw & _ & Hc).
  - unfold decodes. repeat split.
  - reflexivity.
  - left. discriminate.
  - vm_compute in HA. injection HA as <-. split; [exact Hw | exact Hc].
Defined.

(** ** Answers and observations *)

Section Answers.

Context (D : Deps).

(** C3, at a request whose body is the document [null]: the decoder
    leaves the request pointer nil without an error, line 92 reads
    [rpcReq.Method] through it, and the handler panics.  Nothing was
    observed and nothing was written to the body. *)
Theorem Handle_null_body_panics (r : Request) (s : State) :
  outcome (Handle D (with_body r (readable null_literal))) s
    = Panicked nil_dereference /\
  added (Handle D (with_body r (readable null_literal))) s = [] /\
  keep is_overall (added (Handle D (with_body r (readable null_literal))) s)
    = [] /\
  written (rw (final (Handle D (with_body r (readable null_literal))) s))
    = written (rw s).
Proof.
  unfold outcome, added, final, Handle. unfold_effects. simpl.
  rewrite drop_all. repeat split.
Qed.

(** C4. The call came back without a transport error, the response
    carries an [Error], and it serializes: [Handle] writes the serialized
    response and nothing else, records the call under [FailureKindRPC],
    and reports nothing to the error tracker. *)
Theorem Handle_rpc_error_passthrough
    (r : Request) (s : State) (rd : ReadResult) (req : RPCRequest)
    (addr : string) (res : RPCResponse) (rpcErr : RPCError)
    (serialized : bytes) :
  decodes D r rd req ->
  passes_gate D r req ->
  outcome (selectBackend r (ctx_user r)) (at_gate D s) = Returned addr ->
  Call D (callerFor D r (read_data rd) addr
            (callerUserID D req (ctx_user r))) req = (Some res, None) ->
  Error res = Some rpcErr ->
  JSONRPCSerialize D (Some res) = (serialized, None) ->
  outcome (Handle D r) s = Returned tt /\
  written (rw (final (Handle D r) s)) = (written (rw s) ++ serialized)%list /\
  keep is_overall (added (Handle D r) s)
    = [EvObserveDuration (Method req) addr] /\
  keep is_failed (added (Handle D r) s)
    = [EvObserveFailedDuration (Method req) addr FailureKindRPC] /\
  keep is_sentry (added (Handle D r) s) = [].
Proof.
  intros Hdec Hgate Hsel Hcall Herr Hser.
  unfold outcome, added, final.
  rewrite (Handle_decoded D r rd req s Hdec Hgate).
  rewrite (forward_selected D _ _ _ _ addr _ Hsel). simpl.
  rewrite Hcall. unfold respond. simpl. rewrite Hser.
  unfold_effects. simpl. rewrite Herr. simpl.
  rewrite written_send_header, <- !app_assoc, drop_length_app.
  repeat split.
Qed.

(** C8. On a fresh response writer [HandleCORS] sends status 200 with the
    three CORS headers, the allowed origin being the wildcard, and writes
    no body.  It reads nothing of the request and touches neither the
    trace nor the rest of the state. *)
Theorem HandleCORS_preflight
    (r : Request) (tr : list Event) (b : gmap Z string) (seed : nat) :
  let s := {| rw := newResponseWriter; trace := tr; bindings := b;
              rand_source := seed |} in
  outcome (HandleCORS D r) s = Returned tt /\
  (exists sent,
     wroteHeader (rw (final (HandleCORS D r) s)) = Some (200, sent) /\
     sent !! "Access-Control-Allow-Origin" = Some ["*"] /\
     sent !! "Access-Control-Max-Age" = Some ["7200"] /\
     sent !! "Access-Control-Allow-Headers" =
       Some [TokenHeader D
             +:+ ", Origin, X-Requested-With, Content-Type, Accept"] /\
     sent !! "Content-Type" = None) /\
  written (rw (final (HandleCORS D r) s)) = [] /\
  trace (final (HandleCORS D r) s) = tr /\
  bindings (final (HandleCORS D r) s) = b /\
  forall r', HandleCORS D r' s = HandleCORS D r s.
Proof.
  unfold outcome, final, HandleCORS. unfold_effects. simpl.
  split; [reflexivity|]. split.
  - eexists. split; [reflexivity|].
    repeat split; simplify_map_eq; reflexivity.
  - repeat split.
Qed.

End Answers.

Lemma Handle_rpc_error_passthrough_witness :
  written (rw (final
    (Handle Demo.deps (Demo.authenticated (readable (Demo.doc "wallet_send"))))
    Demo.start)) = (Demo.serialize (Some Demo.rejected)).1 /\
  keep is_failed (added
    (Handle Demo.deps (Demo.authenticated (readable (Demo.doc "wallet_send"))))
    Demo.start)
    = [EvObserveFailedDuration "wallet_send" "sdk-sticky:5279" FailureKindRPC].
Proof.
  destruct (Handle_rpc_error_passthrough Demo.deps
              (Demo.authenticated (readable (Demo.doc "wallet_send")))
              Demo.start
              {| read_data := Demo.doc "wallet_send"; read_err := None |}
              (Demo.request "wallet_send")
              "sdk-sticky:5279" Demo.rejected Demo.insufficient_funds
              (Demo.serialize (Some Demo.rejected)).1)
    as (_ & Hw & _ & Hf & _).
  - unfold decodes. repeat split.
  - intros _. reflexivity.
  - vm_compute. reflexivity.
  - reflexivity.
  - reflexivity.
  - reflexivity.
  - split; [exact Hw | exact Hf].
Defined.

(** ** Backend selection and the Caller *)

Section Routing.

Context (D : Deps).


(** What [respond] adds: no Caller event, observations labelled with the
    selected address, and no change to the bindings. *)
Lemma respond_frame (req : RPCRequest) (addr : string)
    (res : option RPCResponse) (err : option error) (s : State) :
  exists evs,
    trace (final (respond D req addr res err) s) = (trace s ++ evs)%list /\
    keep caller_event evs = [] /\
    (forall m a, In (EvObserveDuration m a) evs -> a = addr) /\
    bindings (final (respond D req addr res err) s) = bindings s.
Proof.
  unfold final, respond. unfold_effects.
  crunch; rewrite <- ?app_assoc; simpl;
    first [ eexists; split; [reflexivity|]
          | exists []; split; [symmetry; apply app_nil_r|] ];
    repeat split; intros m a Hin; simpl in Hin;
    intuition (try discriminate; congruence).
Qed.

Lemma Handle_forwarded (r : Request) (s : State) (rd : ReadResult)
    (req : RPCRequest) (addr : string) :
  decodes D r rd req ->
  passes_gate D r req ->
  outcome (selectBackend r (ctx_user r)) (at_gate D s) = Returned addr ->
  exists evs,
    added (Handle D r) s =
      (trace (after_call D r (read_data rd) req addr
                (callerUserID D req (ctx_user r))
                {| rw := rw s; trace := [EvLog Trace "call to method %s"];
                   bindings := bindings s; rand_source := rand_source s |})
       ++ evs)%list /\
    keep caller_event evs = [] /\
    (forall m a, In (EvObserveDuration m a) evs -> a = addr) /\
    bindings (final (Handle D r) s) = bindings s.
Proof.
  intros Hdec Hgate Hsel. unfold added, final.
  rewrite (Handle_decoded D r rd req s Hdec Hgate).
  rewrite (forward_selected D _ _ _ _ addr _ Hsel). cbv zeta.
  match goal with
  | |- context [respond D req addr ?res ?err ?s0] =>
      destruct (respond_frame req addr res err s0) as (evs & Ht & Hc & Ho & Hb)
  end.
  exists evs. unfold final in Ht, Hb. rewrite Ht, Hb. simpl.
  rewrite <- !app_assoc, drop_length_app. simpl. auto.
Qed.

Lemma GetSDKAddress_run (user : option User) (s : State) :
  GetSDKAddress user s =
    (Returned (match user with
               | Some u => default "" (bindings s !! ID u)
               | None => ""
               end), s).
Proof. reflexivity. Qed.


(** With a sticky address the selection is that address. *)
Lemma selectBackend_bound (r : Request) (u : User) (s : State) (b : string) :
  bindings s !! ID u = Some b -> b <> "" ->
  outcome (selectBackend r (Some u)) s = Returned b.
Proof.
  unfold outcome, selectBackend. unfold_monad.
  rewrite GetSDKAddress_run. simpl. intros -> Hb. simpl.
  destruct (String.eqb_spec b ""); [contradiction|reflexivity].
Qed.












(** C10, as the code has it.  The Caller is constructed with user id 0
    unless the method accepts a wallet and a user was resolved, in which
    case it is the user's id.  For a method that does not accept a wallet
    the Caller of a resolved user is, at the same address, the Caller of
    an anonymous request: same user id 0, same hooks, same cache.  The
    address is still the sticky backend of the resolved user when there is
    one. *)
Theorem Handle_caller_user_id
    (r : Request) (s : State) (rd : ReadResult) (req : RPCRequest)
    (addr : string) :
  decodes D r rd req ->
  passes_gate D r req ->
  outcome (selectBackend r (ctx_user r)) (at_gate D s) = Returned addr ->
  let uid := callerUserID D req (ctx_user r) in
  head (keep caller_event (added (Handle D r) s)) =
    Some (EvNewCaller addr uid) /\
  In (EvCall (callerFor D r (read_data rd) addr uid) req)
     (added (Handle D r) s) /\
  (~ (MethodAcceptsWallet D (Method req) = true /\ ctx_user r <> None) ->
     uid = 0) /\
  (forall u, ctx_user r = Some u ->
     MethodAcceptsWallet D (Method req) = true -> uid = ID u) /\
  (MethodAcceptsWallet D (Method req) = false ->
     forall e,
       callerUserID D req None = uid /\
       callerFor D (with_user r None e) (read_data rd) addr
         (callerUserID D req None)
       = callerFor D r (read_data rd) addr uid) /\
  (forall u b, ctx_user r = Some u -> bindings s !! ID u = Some b ->
     b <> "" -> addr = b).
Proof.
  intros Hdec Hgate Hsel uid.
  destruct (Handle_forwarded r s rd req addr Hdec Hgate Hsel)
    as (evs & Hadd & _). fold uid in Hadd.
  split; [rewrite Hadd; reflexivity|]. split.
  { rewrite Hadd. simpl. tauto. }
  subst uid. unfold callerUserID. split.
  { intros Hn. destruct (MethodAcceptsWallet D (Method req)); [|reflexivity].
    destruct (ctx_user r); [|reflexivity].
    exfalso. apply Hn. split; [reflexivity|discriminate]. }
  split.
  { intros u -> ->. reflexivity. }
  split.
  { intros -> e. split; reflexivity. }
  intros u b Hu Hb Hne. rewrite Hu in Hsel.
  rewrite (selectBackend_bound r u (at_gate D s) b Hb Hne) in Hsel.
  congruence.
Qed.

End Routing.



(** Two anonymous requests in a row: the second is not held to the
    backend of the first. *)
Example anonymous_requests_spread :
  let r := Demo.anonymous (readable (Demo.doc "status")) in
  let s1 := final (Handle Demo.deps r) Demo.fresh in
  head (keep caller_event (added (Handle Demo.deps r) Demo.fresh))
    = Some (EvNewCaller "sdk-b:5279" 0) /\
  head (keep caller_event (added (Handle Demo.deps r) s1))
    = Some (EvNewCaller "sdk-a:5279" 0).
Proof. vm_compute. split; reflexivity. Qed.

(** C10, as stated, at a user with a sticky backend.  [status] does not
    accept a wallet.  Alice, bound to [sdk-sticky], gets a Caller for
    [sdk-sticky]; the anonymous request gets one for the randomly drawn
    [sdk-b].  Both carry user id 0, and they are not the same Caller. *)
Lemma authenticated_not_routed_as_anonymous :
  MethodAcceptsWallet Demo.deps "status" = false /\
  head (keep caller_event (added
    (Handle Demo.deps (Demo.authenticated (readable (Demo.doc "status"))))
    Demo.start)) = Some (EvNewCaller "sdk-sticky:5279" 0) /\
  head (keep caller_event (added
    (Handle Demo.deps (Demo.anonymous (readable (Demo.doc "status"))))
    Demo.start)) = Some (EvNewCaller "sdk-b:5279" 0) /\
  head (keep caller_event (added
    (Handle Demo.deps (Demo.authenticated (readable (Demo.doc "status"))))
    Demo.start)) <>
  head (keep caller_event (added
    (Handle Demo.deps (Demo.anonymous (readable (Demo.doc "status"))))
    Demo.start)).
Proof.
  assert (Ha : head (keep caller_event (added
    (Handle Demo.deps (Demo.authenticated (readable (Demo.doc "status"))))
    Demo.start)) = Some (EvNewCaller "sdk-sticky:5279" 0))
    by (vm_compute; reflexivity).
  assert (Hb : head (keep caller_event (added
    (Handle Demo.deps (Demo.anonymous (readable (Demo.doc "status"))))
    Demo.start)) = Some (EvNewCaller "sdk-b:5279" 0))
    by (vm_compute; reflexivity).
  split; [reflexivity|]. split; [exact Ha|]. split; [exact Hb|].
  rewrite Ha, Hb. discriminate.
Qed.

Lemma Handle_caller_user_id_witness :
  head (keep caller_event (added
    (Handle Demo.deps (Demo.authenticated (readable (Demo.doc "status"))))
    Demo.start)) = Some (EvNewCaller "sdk-sticky:5279" 0).
Proof.
  destruct (Handle_caller_user_id Demo.deps
              (Demo.authenticated (readable (Demo.doc "status")))
              Demo.start
              {| read_data := Demo.doc "status"; read_err := None |}
              (Demo.request "status") "sdk-sticky:5279")
    as (Hhd & _).
  - unfold decodes. repeat split.
  - intros H. vm_compute in H. discriminate H.
  - vm_compute. reflexivity.
  - exact Hhd.
Defined.

(** ** Error bodies *)

Section Envelopes.

Context (D : Deps) (envelope : bytes -> Prop).

(** Every returning run of [Handle] that records a failure observation
    is on one of the seven failure paths: there is no eighth. *)
Lemma failed_run_on_FailurePath (r : Request) (s : State) :
  outcome (Handle D r) s = Returned tt ->
  keep is_failed (added (Handle D r) s) <> [] ->
  exists kind, FailurePath D r s kind.
Proof.
  intros Hret Hfail.
  destruct (Body r) as [rd|] eqn:HB;
    [|exists FailureKindClient; apply EmptyBody; exact HB].
  destruct (read_err rd) as [e|] eqn:Hrd;
    [exists FailureKindClient; eapply UnreadableBody; eauto|].
  destruct (json_Unmarshal D (read_data rd)) as [[req|] [e|]] eqn:Hdec;
    try (exists FailureKindClientJSON; eapply UnparseableJSON; eauto; fail).
  - assert (Hd : decodes D r rd req) by (repeat split; assumption).
    destruct (MethodRequiresWallet D (Method req) (Params req)) eqn:Hreq;
      [destruct (GetAuthError D (ctx_user r) (ctx_auth_err r)) as [authErr|]
         eqn:Hauth;
       [exists FailureKindAuth; eapply AuthError; eauto|]|].
    all: assert (Hgate : passes_gate D r req)
           by (unfold passes_gate; intros; congruence).
    all: unfold outcome, keep, added, final in Hret, Hfail;
         rewrite (Handle_decoded D r rd req s Hd Hgate) in Hret, Hfail.
    all: destruct (outcome (selectBackend r (ctx_user r)) (at_gate D s))
           as [addr|msg] eqn:Hsel;
         [|rewrite (forward_unselected D _ _ _ _ msg _ Hsel) in Hret;
           discriminate Hret].
    all: rewrite (forward_selected D _ _ _ _ addr _ Hsel) in Hret, Hfail;
         cbv zeta in Hret, Hfail.
    all: destruct (Call D (callerFor D r (read_data rd) addr
                     (callerUserID D req (ctx_user r))) req)
           as [res [e|]] eqn:Hcall;
         [exists FailureKindNet; eapply CallError; eauto|].
    all: destruct (JSONRPCSerialize D res) as [ser [e|]] eqn:Hser;
         [exists FailureKindRPCJSON; eapply SerializationError; eauto|].
    all: destruct res as [res|];
         [destruct (Error res) as [rpcErr|] eqn:Herr;
          [exists FailureKindRPC; eapply BackendRPCError; eauto|]|].
    all: exfalso; unfold respond in Hret, Hfail; simpl in Hret, Hfail;
         rewrite Hser in Hret, Hfail; unfold_effects;
         simpl in Hret, Hfail; try discriminate Hret;
         rewrite Herr in Hfail; simpl in Hfail;
         rewrite <- !app_assoc, drop_length_app in Hfail;
         apply Hfail; reflexivity.
  - exfalso. unfold outcome, Handle in Hret. unfold_effects.
    rewrite HB, Hrd, Hdec in Hret. discriminate Hret.
Qed.

(** The answer on a failure path: returned, an envelope, the failure
    observation, the status line. *)
Ltac answered HJ :=
  simpl; rewrite ?written_send_header, <- ?app_assoc, ?drop_length_app; simpl;
  split; [reflexivity|];
  split; [eauto|];
  split; [eauto|];
  do 2 eexists; split; [reflexivity|];
  split; [auto|apply lookup_insert_eq].

(** C6. On every failure path of [Handle] (empty body, unreadable body,
    unparseable JSON, auth error, backend call error, serialization
    error, backend RPC error), each taken as the condition on the request
    and the collaborators under which the code enters it: [Handle]
    returns, it records one failure observation, of the kind of that
    path, all that it wrote to a fresh response writer is one JSON-RPC
    error envelope, and it sent status 200 or 400 with the JSON content
    type. *)
Theorem Handle_failure_writes_envelope
    (r : Request) (s : State) (kind : FailureKind) :
  SerializersWellFormed D envelope ->
  rw s = newResponseWriter ->
  FailurePath D r s kind ->
  outcome (Handle D r) s = Returned tt /\
  envelope (written (rw (final (Handle D r) s))) /\
  (exists m a, keep is_failed (added (Handle D r) s)
                 = [EvObserveFailedDuration m a kind]) /\
  exists code sent,
    wroteHeader (rw (final (Handle D r) s)) = Some (code, sent) /\
    (code = StatusOK \/ code = StatusBadRequest) /\
    sent !! "Content-Type" = Some [JSONContentType D].
Proof.
  intros [HJ HE HT HP] Hrw Hpath.
  unfold outcome, keep, added, final.
  destruct Hpath as
    [ HB | rd e HB Hrd | rd req e HB Hrd Hdec
    | rd req authErr (HB & Hrd & Hdec) Hreq Hauth
    | rd req addr res e Hd Hgate Hsel Hcall
    | rd req addr res partial e Hd Hgate Hsel Hcall Hser
    | rd req addr res serialized rpcErr Hd Hgate Hsel Hcall Hser Herr ].
  - unfold Handle. unfold_effects. rewrite HB, Hrw. answered HJ.
  - unfold Handle. unfold_effects. rewrite HB, Hrd, Hrw. answered HJ.
  - unfold Handle. unfold_effects. rewrite HB, Hrd, Hdec, Hrw. answered HJ.
  - unfold Handle. unfold_effects. rewrite HB, Hrd, Hdec. simpl.
    rewrite Hreq, Hauth, Hrw. answered HJ.
  - rewrite (Handle_decoded D r rd req s Hd Hgate).
    rewrite (forward_selected D _ _ _ _ addr _ Hsel). cbv zeta.
    rewrite Hcall. unfold respond. unfold_effects. simpl. rewrite Hrw.
    answered HJ.
  - rewrite (Handle_decoded D r rd req s Hd Hgate).
    rewrite (forward_selected D _ _ _ _ addr _ Hsel). cbv zeta.
    rewrite Hcall. unfold respond. simpl. rewrite Hser.
    unfold_effects. simpl. rewrite Hrw. answered HJ.
  - rewrite (Handle_decoded D r rd req s Hd Hgate).
    rewrite (forward_selected D _ _ _ _ addr _ Hsel). cbv zeta.
    rewrite Hcall. unfold respond. simpl. rewrite Hser.
    unfold_effects. simpl. rewrite Herr. simpl. rewrite Hrw. answered HJ.
Qed.

End Envelopes.

Lemma Demo_serializers_wf : SerializersWellFormed Demo.deps Demo.envelope.
Proof.
  split; simpl; unfold Demo.render, Demo.envelope; intros; eauto.
  unfold Demo.serialize in *. rewrite H in H0. injection H0 as <-. eauto.
Qed.

Lemma Down_serializers_wf : SerializersWellFormed Doubles.down Demo.envelope.
Proof.
  split; simpl; unfold Demo.render, Demo.envelope; intros; eauto.
  unfold Demo.serialize in *. rewrite H in H0. injection H0 as <-. eauto.
Qed.

Lemma Handle_failure_writes_envelope_witness :
  outcome (Handle Doubles.down (Demo.anonymous (readable (Demo.doc "status"))))
    Demo.fresh = Returned tt /\
  Demo.envelope (written (rw (final
    (Handle Doubles.down (Demo.anonymous (readable (Demo.doc "status"))))
    Demo.fresh))).
Proof.
  destruct (Handle_failure_writes_envelope Doubles.down Demo.envelope
              (Demo.anonymous (readable (Demo.doc "status")))
              Demo.fresh FailureKindNet)
    as (Hret & Henv & _).
  - exact Down_serializers_wf.
  - reflexivity.
  - apply CallError
      with (rd := {| read_data := Demo.doc "status"; read_err := None |})
           (req := Demo.request "status") (addr := "sdk-b:5279")
           (res := None) (e := Doubles.refused).
    + unfold decodes. repeat split.
    + intros H. vm_compute in H. discriminate H.
    + vm_compute. reflexivity.
    + reflexivity.
  - split; [exact Hret | exact Henv].
Defined.

(** ** Further properties of [Handle] *)

Section MorePaths.

Context (D : Deps).

(** X1. The success path.  The call came back without error, the
    response carries no [Error] and serializes: [Handle] returns after
    writing exactly the serialized response, with one overall observation
    labelled by method and backend address and neither a failure
    observation nor a report to the error tracker. *)
Theorem Handle_success
    (r : Request) (s : State) (rd : ReadResult) (req : RPCRequest)
    (addr : string) (res : RPCResponse) (serialized : bytes) :
  decodes D r rd req ->
  passes_gate D r req ->
  outcome (selectBackend r (ctx_user r)) (at_gate D s) = Returned addr ->
  Call D (callerFor D r (read_data rd) addr
            (callerUserID D req (ctx_user r))) req = (Some res, None) ->
  Error res = None ->
  JSONRPCSerialize D (Some res) = (serialized, None) ->
  outcome (Handle D r) s = Returned tt /\
  written (rw (final (Handle D r) s)) = (written (rw s) ++ serialized)%list /\
  keep is_overall (added (Handle D r) s)
    = [EvObserveDuration (Method req) addr] /\
  keep is_failed (added (Handle D r) s) = [] /\
  keep is_sentry (added (Handle D r) s) = [].
Proof.
  intros Hdec Hgate Hsel Hcall Herr Hser.
  unfold outcome, added, final.
  rewrite (Handle_decoded D r rd req s Hdec Hgate).
  rewrite (forward_selected D _ _ _ _ addr _ Hsel). simpl.
  rewrite Hcall. unfold respond. simpl. rewrite Hser.
  unfold_effects. simpl. rewrite Herr. simpl.
  rewrite written_send_header, <- !app_assoc, drop_length_app.
  repeat split.
Qed.

(** X2. A transport error from the call.  Whatever response came with
    it, [Handle] writes [rpcerrors.ToJSON] of the error and nothing else,
    reports that error once to the error tracker, and records the call
    under [FailureKindNet] with method and backend address. *)
Theorem Handle_call_error
    (r : Request) (s : State) (rd : ReadResult) (req : RPCRequest)
    (addr : string) (res : option RPCResponse) (e : error) :
  decodes D r rd req ->
  passes_gate D r req ->
  outcome (selectBackend r (ctx_user r)) (at_gate D s) = Returned addr ->
  Call D (callerFor D r (read_data rd) addr
            (callerUserID D req (ctx_user r))) req = (res, Some e) ->
  outcome (Handle D r) s = Returned tt /\
  written (rw (final (Handle D r) s))
    = (written (rw s) ++ rpcerrors_ToJSON D e)%list /\
  keep is_sentry (added (Handle D r) s) = [EvSentry e] /\
  keep is_overall (added (Handle D r) s)
    = [EvObserveDuration (Method req) addr] /\
  keep is_failed (added (Handle D r) s)
    = [EvObserveFailedDuration (Method req) addr FailureKindNet].
Proof.
  intros Hdec Hgate Hsel Hcall.
  unfold outcome, added, final.
  rewrite (Handle_decoded D r rd req s Hdec Hgate).
  rewrite (forward_selected D _ _ _ _ addr _ Hsel). simpl.
  rewrite Hcall. unfold respond. simpl.
  unfold_effects. simpl.
  rewrite written_send_header, <- !app_assoc, drop_length_app.
  repeat split.
Qed.

(** X3. A serialization error takes precedence over the content of the
    response.  When [JSONRPCSerialize] fails, also on a response that
    carries an [Error], [Handle] writes the internal-error body (none of
    the bytes the serializer returned), reports the error to the error
    tracker and records [FailureKindRPCJSON], not [FailureKindRPC]. *)
Theorem Handle_serialization_error
    (r : Request) (s : State) (rd : ReadResult) (req : RPCRequest)
    (addr : string) (res : option RPCResponse) (partial : bytes)
    (e : error) :
  decodes D r rd req ->
  passes_gate D r req ->
  outcome (selectBackend r (ctx_user r)) (at_gate D s) = Returned addr ->
  Call D (callerFor D r (read_data rd) addr
            (callerUserID D req (ctx_user r))) req = (res, None) ->
  JSONRPCSerialize D res = (partial, Some e) ->
  outcome (Handle D r) s = Returned tt /\
  written (rw (final (Handle D r) s))
    = (written (rw s) ++ rpcerrors_JSON D (InternalError e))%list /\
  keep is_sentry (added (Handle D r) s) = [EvSentry e] /\
  keep is_failed (added (Handle D r) s)
    = [EvObserveFailedDuration (Method req) addr FailureKindRPCJSON].
Proof.
  intros Hdec Hgate Hsel Hcall Hser.
  unfold outcome, added, final.
  rewrite (Handle_decoded D r rd req s Hdec Hgate).
  rewrite (forward_selected D _ _ _ _ addr _ Hsel). simpl.
  rewrite Hcall. unfold respond. simpl. rewrite Hser.
  unfold_effects. simpl.
  rewrite written_send_header, <- !app_assoc, drop_length_app.
  repeat split.
Qed.

(** X4. The HTTP status of the answer.  On a fresh response writer every
    run of [Handle] that returns has sent the header exactly as
    [AddJSONContentType] left it, with status 400 when the body is nil or
    cannot be read and status 200 on every other path, an undecodable
    document, an auth error and a backend failure included. *)
Theorem Handle_status (r : Request) (s : State) :
  rw s = newResponseWriter ->
  outcome (Handle D r) s = Returned tt ->
  wroteHeader (rw (final (Handle D r) s)) =
    Some (match Body r with
          | None => StatusBadRequest
          | Some rd => if is_nil (read_err rd) then StatusOK
                       else StatusBadRequest
          end,
          <["Content-Type" := [JSONContentType D]]> ∅) /\
  Header (rw (final (Handle D r) s))
    = <["Content-Type" := [JSONContentType D]]> ∅.
Proof.
  intros Hrw. destruct s as [w tr bs seed]. simpl in Hrw. subst w.
  unfold outcome, final, Handle, forward, respond. unfold_effects.
  crunch; simpl; intros Hret; try discriminate Hret; split; reflexivity.
Qed.

(** X5. For a method that is not wallet-required the resolution error is
    never looked at: the run of [Handle] is the same whatever error came
    with the user, so a request with bad credentials is forwarded like
    one without an error. *)
Theorem Handle_ignores_auth_error_without_gate
    (r : Request) (s : State) (rd : ReadResult) (req : RPCRequest)
    (e : option error) :
  decodes D r rd req ->
  MethodRequiresWallet D (Method req) (Params req) = false ->
  Handle D (with_user r (ctx_user r) e) s = Handle D r s.
Proof.
  intros (HB & Hrd & Hdec) Hreq.
  unfold Handle. unfold_effects. simpl.
  rewrite HB, Hrd, Hdec. simpl. rewrite Hreq.
  unfold forward, selectBackend, buildCaller, cache_IsOnRequest,
    cache_FromRequest, ip_FromRequest, sdkrouter_FromRequest.
  reflexivity.
Qed.

(** X6. The Caller protocol.  On every run of [Handle], returning or
    not, the Caller events are either none, or exactly: one construction,
    the [wallet_] hook that logs the remote IP, the [MethodWalletSend]
    audit hook holding the Caller's user id and the raw body,
    [lbrynext.InstallHooks], and one call, in this order.  No request
    reaches the backend twice. *)
Theorem Handle_caller_protocol (r : Request) (s : State) :
  keep caller_event (added (Handle D r) s) = [] \/
  exists addr uid body req,
    keep caller_event (added (Handle D r) s) =
      [EvNewCaller addr uid;
       EvAddPostflightHook {| hook_pattern := "wallet_";
                              hook_handler := LogRemoteIP (ctx_remote_ip r);
                              hook_builder := "" |};
       EvAddPostflightHook {| hook_pattern := MethodWalletSend D;
                              hook_handler :=
                                AuditWalletSend uid (ctx_remote_ip r) body;
                              hook_builder := "" |};
       EvInstallHooks;
       EvCall (callerFor D r body addr uid) req] /\
    Body r = Some {| read_data := body; read_err := None |}.
Proof.
  unfold keep, added, final, Handle, forward, respond, callerFor,
    buildCaller, cache_IsOnRequest, cache_FromRequest, ip_FromRequest.
  unfold_effects.
  crunch; simpl; rewrite <- ?app_assoc; simpl;
    rewrite ?drop_length_app, ?drop_all; simpl; auto;
    right; do 4 eexists; (split; [reflexivity|]);
    destruct r0; simpl in *; congruence.
Qed.

(** X7. Which failures reach the error tracker.  On every run of
    [Handle] a report is sent at most once, and exactly on the paths that
    record [FailureKindNet] or [FailureKindRPCJSON]; client, auth and
    backend RPC errors are never reported. *)
Theorem Handle_sentry_kinds (r : Request) (s : State) :
  (keep is_sentry (added (Handle D r) s) = [] /\
   forall m a k, In (EvObserveFailedDuration m a k) (added (Handle D r) s) ->
                 k <> FailureKindNet /\ k <> FailureKindRPCJSON) \/
  (exists e m a k,
     keep is_sentry (added (Handle D r) s) = [EvSentry e] /\
     keep is_failed (added (Handle D r) s)
       = [EvObserveFailedDuration m a k] /\
     (k = FailureKindNet \/ k = FailureKindRPCJSON)).
Proof.
  unfold keep, added, final, Handle, forward, respond. unfold_effects.
  crunch; simpl; rewrite <- ?app_assoc; simpl;
    rewrite ?drop_length_app, ?drop_all; simpl;
    first [ right; do 4 eexists; split; [reflexivity|];
            split; [reflexivity|]; auto; fail
          | left; split; [reflexivity|];
            intros mm aa kk Hin; simpl in Hin;
            intuition (try discriminate; try congruence) ].
Qed.

(** X8. What a failure kind says about the backend.  On every run of
    [Handle]: a client failure is labelled with the empty method and
    address, an auth failure with the empty address, and neither has
    constructed a Caller; a failure of kind net, RPC-JSON or RPC has an
    address label that a Caller was constructed for and follows a call
    for the labelled method. *)
Theorem Handle_failure_kind_and_backend (r : Request) (s : State) :
  forall m a k,
    In (EvObserveFailedDuration m a k) (added (Handle D r) s) ->
    match k with
    | FailureKindClient | FailureKindClientJSON =>
        m = "" /\ a = "" /\ keep caller_event (added (Handle D r) s) = []
    | FailureKindAuth =>
        a = "" /\ keep caller_event (added (Handle D r) s) = []
    | FailureKindNet | FailureKindRPCJSON | FailureKindRPC =>
        exists uid c req,
          In (EvNewCaller a uid) (added (Handle D r) s) /\
          In (EvCall c req) (added (Handle D r) s) /\ Method req = m
    end.
Proof.
  unfold keep, added, final, Handle, forward, respond. unfold_effects.
  crunch; simpl; rewrite <- ?app_assoc; simpl;
    rewrite ?drop_length_app, ?drop_all; simpl;
    intros mm aa kk Hin;
    repeat (destruct Hin as [Hin|Hin]; try discriminate Hin);
    try contradiction;
    injection Hin as <- <- <-; simpl; auto;
    (do 3 eexists; (split; [|split; [|reflexivity]]); simpl; eauto 10).
Qed.

(** X9. [HandleCORS] on any response writer.  It overwrites the three
    CORS headers and leaves every other header and the body alone; a
    status that already went out stays as it was, since the later
    [WriteHeader] is ignored, and otherwise 200 goes out with the headers
    as they then stand.  Running it a second time changes nothing. *)
Theorem HandleCORS_any_writer (r r' : Request) (s : State) :
  let s' := final (HandleCORS D r) s in
  Header (rw s') !! "Access-Control-Allow-Origin" = Some ["*"] /\
  Header (rw s') !! "Access-Control-Max-Age" = Some ["7200"] /\
  Header (rw s') !! "Access-Control-Allow-Headers" =
    Some [TokenHeader D
          +:+ ", Origin, X-Requested-With, Content-Type, Accept"] /\
  (forall k, k <> "Access-Control-Allow-Origin" ->
             k <> "Access-Control-Max-Age" ->
             k <> "Access-Control-Allow-Headers" ->
             Header (rw s') !! k = Header (rw s) !! k) /\
  written (rw s') = written (rw s) /\
  wroteHeader (rw s') =
    match wroteHeader (rw s) with
    | Some sent => Some sent
    | None => Some (StatusOK, Header (rw s'))
    end /\
  final (HandleCORS D r') s' = s'.
Proof.
  unfold final, HandleCORS. unfold_effects. simpl.
  rewrite !Header_send_header, !written_send_header. simpl.
  split; [simplify_map_eq; reflexivity|].
  split; [simplify_map_eq; reflexivity|].
  split; [simplify_map_eq; reflexivity|].
  split; [intros k H1 H2 H3; simplify_map_eq; reflexivity|].
  split; [reflexivity|].
  split; [unfold send_header; simpl; destruct (wroteHeader (rw s)); reflexivity|].
  assert (Hh : forall (h : gmap string (list string)) (v1 v2 v3 : list string),
             <["Access-Control-Allow-Headers" := v3]>
               (<["Access-Control-Allow-Origin" := v2]>
                  (<["Access-Control-Max-Age" := v1]>
                     (<["Access-Control-Allow-Headers" := v3]>
                        (<["Access-Control-Allow-Origin" := v2]>
                           (<["Access-Control-Max-Age" := v1]> h)))))
             = <["Access-Control-Allow-Headers" := v3]>
                 (<["Access-Control-Allow-Origin" := v2]>
                    (<["Access-Control-Max-Age" := v1]> h))).
  { intros h v1 v2 v3. apply map_eq. intros k.
    destruct (decide (k = "Access-Control-Allow-Headers")) as [->|];
      [simplify_map_eq; reflexivity|].
    destruct (decide (k = "Access-Control-Allow-Origin")) as [->|];
      [simplify_map_eq; reflexivity|].
    destruct (decide (k = "Access-Control-Max-Age")) as [->|];
      simplify_map_eq; reflexivity. }
  unfold send_header. simpl.
  destruct (wroteHeader (rw s)); simpl; rewrite Hh; reflexivity.
Qed.

End MorePaths.

Lemma Handle_success_witness :
  written (rw (final
    (Handle Demo.deps (Demo.anonymous (readable (Demo.doc "status"))))
    Demo.fresh)) = (Demo.serialize (Some Demo.accepted)).1.
Proof.
  destruct (Handle_success Demo.deps
              (Demo.anonymous (readable (Demo.doc "status"))) Demo.fresh
              {| read_data := Demo.doc "status"; read_err := None |}
              (Demo.request "status") "sdk-b:5279" Demo.accepted
              (Demo.serialize (Some Demo.accepted)).1)
    as (_ & Hw & _).
  - unfold decodes. repeat split.
  - intros H. vm_compute in H. discriminate H.
  - vm_compute. reflexivity.
  - reflexivity.
  - reflexivity.
  - reflexivity.
  - exact Hw.
Defined.

Lemma Handle_call_error_witness :
  keep is_failed (added
    (Handle Doubles.down (Demo.anonymous (readable (Demo.doc "status"))))
    Demo.fresh)
  = [EvObserveFailedDuration "status" "sdk-b:5279" FailureKindNet].
Proof.
  destruct (Handle_call_error Doubles.down
              (Demo.anonymous (readable (Demo.doc "status"))) Demo.fresh
              {| read_data := Demo.doc "status"; read_err := None |}
              (Demo.request "status") "sdk-b:5279" None Doubles.refused)
    as (_ & _ & _ & _ & Hf).
  - unfold decodes. repeat split.
  - intros H. vm_compute in H. discriminate H.
  - vm_compute. reflexivity.
  - reflexivity.
  - exact Hf.
Defined.

Lemma Handle_serialization_error_witness :
  keep is_failed (added
    (Handle Doubles.unserializable
       (Demo.authenticated (readable (Demo.doc "wallet_send"))))
    Demo.start)
  = [EvObserveFailedDuration "wallet_send" "sdk-sticky:5279"
       FailureKindRPCJSON].
Proof.
  destruct (Handle_serialization_error Doubles.unserializable
              (Demo.authenticated (readable (Demo.doc "wallet_send")))
              Demo.start
              {| read_data := Demo.doc "wallet_send"; read_err := None |}
              (Demo.request "wallet_send") "sdk-sticky:5279"
              (Some Demo.rejected) [] Doubles.unsupported)
    as (_ & _ & _ & Hf).
  - unfold decodes. repeat split.
  - intros _. reflexivity.
  - vm_compute. reflexivity.
  - reflexivity.
  - reflexivity.
  - exact Hf.
Defined.

Lemma Handle_status_witness :
  fst <$> wroteHeader (rw (final
    (Handle Demo.deps (Demo.anonymous (readable (Demo.text "not json"))))
    Demo.fresh)) = Some StatusOK /\
  fst <$> wroteHeader (rw (final
    (Handle Demo.deps (Demo.anonymous None)) Demo.fresh))
    = Some StatusBadRequest.
Proof.
  split.
  - destruct (Handle_status Demo.deps
                (Demo.anonymous (readable (Demo.text "not json"))) Demo.fresh)
      as [Hs _]; [reflexivity | reflexivity |].
    rewrite Hs. reflexivity.
  - destruct (Handle_status Demo.deps (Demo.anonymous None) Demo.fresh)
      as [Hs _]; [reflexivity | reflexivity |].
    rewrite Hs. reflexivity.
Defined.

Lemma Handle_ignores_auth_error_without_gate_witness :
  Handle Demo.deps
    (with_user (Demo.anonymous (readable (Demo.doc "status"))) None None)
    Demo.fresh
  = Handle Demo.deps (Demo.anonymous (readable (Demo.doc "status")))
      Demo.fresh.
Proof.
  apply (Handle_ignores_auth_error_without_gate Demo.deps
           (Demo.anonymous (readable (Demo.doc "status"))) Demo.fresh
           {| read_data := Demo.doc "status"; read_err := None |}
           (Demo.request "status") None).
  - unfold decodes. repeat split.
  - reflexivity.
Defined.

(** * Properties of the reporter server *)

Section OriginPattern.

Import Reporter.

Ltac bool_hyps :=
  repeat match goal with
         | H : (_ <? _)%N = true |- _ => apply N.ltb_lt in H
         | H : (_ <? _)%N = false |- _ => apply N.ltb_ge in H
         | H : (_ <=? _)%N = true |- _ => apply N.leb_le in H
         | H : (_ <=? _)%N = false |- _ => apply N.leb_gt in H
         | H : (_ =? _)%N = true |- _ => apply N.eqb_eq in H
         | H : (_ =? _)%N = false |- _ => apply N.eqb_neq in H
         | H : (_ && _)%bool = true |- _ => apply andb_true_iff in H as [? ?]
         | H : (_ || _)%bool = false |- _ => apply orb_false_iff in H as [? ?]
         | H : negb _ = true |- _ => apply negb_true_iff in H
         | H : negb _ = false |- _ => apply negb_false_iff in H
         end.

Ltac split_ifs :=
  repeat match goal with
         | |- context [if ?b then _ else _] => destruct b eqn:?
         end.

Lemma rune_width_pos (c : ascii) (s : string) :
  (1 <= rune_width (String c s))%nat.
Proof.
  unfold rune_width. split_ifs; try lia.
  all: repeat match goal with
              | |- context [match ?x with EmptyString => _ | String _ _ => _ end] =>
                  destruct x
              end; split_ifs; lia.
Qed.

(** The bytes of a rune after the first are continuation bytes, so a rune
    never runs into an ASCII byte. *)
Lemma rune_width_stops_at_ascii (x : string) (a : ascii) (t : string) :
  x <> "" -> (byte_of a < 128)%N ->
  (rune_width (x ++ String a t) <= String.length x)%nat.
Proof.
  intros Hx Ha.
  destruct x as [|c0 x]; [congruence|]. clear Hx.
  unfold rune_width. simpl String.append. cbv zeta.
  repeat (simpl;
          match goal with
          | |- context [if ?b then _ else _] => destruct b eqn:?
          | |- context [match ?y ++ _ with _ => _ end] => destruct y
          end);
    simpl; unfold in_range in *; bool_hyps; lia.
Qed.

Lemma drop_bytes_app (n : nat) (x y : string) :
  (n <= String.length x)%nat ->
  drop_bytes n (x ++ y) = drop_bytes n x ++ y.
Proof.
  revert x. induction n as [|n IH]; intros x Hn.
  - destruct x; reflexivity.
  - destruct x as [|c x]; simpl in *; [lia|]. apply IH. lia.
Qed.

Lemma drop_bytes_length (n : nat) (x : string) :
  String.length (drop_bytes n x) = (String.length x - n)%nat.
Proof.
  revert x. induction n as [|n IH]; intros x.
  - destruct x; simpl; lia.
  - destruct x as [|c x]; simpl; [reflexivity|]. apply IH.
Qed.

Lemma drop_bytes_suffix (n : nat) (x : string) :
  exists pre, x = pre ++ drop_bytes n x.
Proof.
  revert x. induction n as [|n IH]; intros x.
  - exists "". destruct x; reflexivity.
  - destruct x as [|c x]; simpl; [exists ""; reflexivity|].
    destruct (IH x) as [pre Hpre]. exists (String c pre).
    simpl. change (String c pre ++ drop_bytes n x)
      with (String c (pre ++ drop_bytes n x)).
    rewrite <- Hpre. reflexivity.
Qed.

Lemma no_newline_drop (n : nat) (x : string) :
  no_newline x = true -> no_newline (drop_bytes n x) = true.
Proof.
  revert x. induction n as [|n IH]; intros x H.
  - destruct x; exact H.
  - destruct x as [|c x]; simpl in *; [reflexivity|].
    apply andb_true_iff in H as [_ H]. apply IH, H.
Qed.

Lemma string_app_length (x y : string) :
  String.length (x ++ y) = (String.length x + String.length y)%nat.
Proof.
  induction x as [|c x IH]; [reflexivity|].
  change (String c x ++ y) with (String c (x ++ y)). simpl. congruence.
Qed.

Lemma string_app_assoc (x y z : string) : (x ++ y) ++ z = x ++ (y ++ z).
Proof.
  induction x as [|c x IH]; [reflexivity|].
  change ((String c x ++ y) ++ z) with (String c ((x ++ y) ++ z)).
  rewrite IH. reflexivity.
Qed.

(** The search reaches every position that holds an ASCII byte. *)
Lemma search_reaches (r : regex) (pre : string) (a : ascii) (t : string)
    (fuel : nat) :
  (byte_of a < 128)%N ->
  match_here r (String a t) (fun _ => true) = true ->
  (String.length pre <= fuel)%nat ->
  search fuel r (pre ++ String a t) = true.
Proof.
  intros Ha Hm. revert pre.
  induction fuel as [|fuel IH]; intros pre Hf.
  - destruct pre; simpl in Hf; [|lia].
    change ("" ++ String a t) with (String a t).
    simpl. rewrite Hm. reflexivity.
  - destruct pre as [|c pre].
    + change ("" ++ String a t) with (String a t).
      simpl. rewrite Hm. reflexivity.
    + cbn [search]. apply orb_true_iff. right.
      change (String c pre ++ String a t) with (String c (pre ++ String a t)).
      cbv iota beta.
      change (String c (pre ++ String a t)) with (String c pre ++ String a t).
      assert (Hw := rune_width_stops_at_ascii (String c pre) a t
                      ltac:(discriminate) Ha).
      assert (Hp := rune_width_pos c (pre ++ String a t)).
      change (String c (pre ++ String a t)) with (String c pre ++ String a t) in Hp.
      rewrite drop_bytes_app by exact Hw.
      apply IH. rewrite drop_bytes_length. simpl in *. lia.
Qed.

(** [.+] gets from the start of a run of non-newline bytes to the ASCII
    byte that ends it. *)
Lemma plus_any_reaches (sub : string) (a : ascii) (t : string)
    (k : string -> bool) (fuel : nat) :
  sub <> "" -> no_newline sub = true -> (byte_of a < 128)%N ->
  k (String a t) = true ->
  (String.length sub <= fuel)%nat ->
  plus_loop fuel AnyNotNL (sub ++ String a t) k = true.
Proof.
  intros Hsub Hnl Ha Hk. revert sub Hsub Hnl.
  induction fuel as [|fuel IH]; intros sub Hsub Hnl Hf.
  - destruct sub; [congruence|simpl in Hf; lia].
  - destruct sub as [|c sub]; [congruence|].
    cbn [plus_loop]. unfold step.
    change (String c sub ++ String a t) with (String c (sub ++ String a t)).
    cbv iota beta.
    change (String c (sub ++ String a t)) with (String c sub ++ String a t).
    simpl in Hnl. apply andb_true_iff in Hnl as [Hc Hnl].
    apply negb_true_iff in Hc. rewrite Hc.
    assert (Hw := rune_width_stops_at_ascii (String c sub) a t
                    ltac:(discriminate) Ha).
    assert (Hp := rune_width_pos c (sub ++ String a t)).
    change (String c (sub ++ String a t)) with (String c sub ++ String a t) in Hp.
    rewrite drop_bytes_app by exact Hw.
    destruct (drop_bytes (rune_width (String c sub ++ String a t)) (String c sub))
      as [|c' sub'] eqn:Hd.
    + change ("" ++ String a t) with (String a t). rewrite Hk. reflexivity.
    + apply orb_true_iff. right. apply IH.
      * discriminate.
      * rewrite <- Hd. apply no_newline_drop. simpl. rewrite Hc, Hnl. reflexivity.
      * rewrite <- Hd, drop_bytes_length. simpl in *. lia.
Qed.

(** A single non-newline byte before an ASCII byte is one rune. *)
Lemma step_any_byte (c a : ascii) (t : string) :
  Ascii.eqb c "010"%char = false -> (byte_of a < 128)%N ->
  step AnyNotNL (String c (String a t)) = Some (String a t).
Proof.
  intros Hc Ha. unfold step. rewrite Hc.
  assert (Hw := rune_width_stops_at_ascii (String c "") a t
                  ltac:(discriminate) Ha).
  assert (Hp := rune_width_pos c (String a t)).
  change (String c "" ++ String a t) with (String c (String a t)) in Hw.
  simpl String.length in Hw.
  replace (rune_width (String c (String a t))) with 1%nat by lia.
  reflexivity.
Qed.

Lemma Match_reaches (r : regex) (pre : string) (a : ascii) (t : string) :
  (byte_of a < 128)%N ->
  match_here r (String a t) (fun _ => true) = true ->
  Match r (pre ++ String a t) = true.
Proof.
  intros Ha Hm. unfold Match. apply search_reaches; auto.
  rewrite string_app_length. lia.
Qed.


Lemma strip_app (lit s : string) : strip lit (lit ++ s) = Some s.
Proof.
  induction lit as [|x lit IH]; [reflexivity|].
  change (String x lit ++ s) with (String x (lit ++ s)).
  simpl. rewrite Ascii.eqb_refl. exact IH.
Qed.

Lemma strip_Some (lit s s' : string) : strip lit s = Some s' -> s = lit ++ s'.
Proof.
  revert s. induction lit as [|x lit IH]; intros s H; simpl in H.
  - injection H as ->. reflexivity.
  - destruct s as [|c s]; [discriminate|].
    destruct (Ascii.eqb_spec c x) as [->|]; [|discriminate].
    change (String x lit ++ s') with (String x (lit ++ s')).
    f_equal. apply IH, H.
Qed.

Lemma search_sound (r : regex) (fuel : nat) (s : string) :
  search fuel r s = true ->
  exists pre t, s = pre ++ t /\ match_here r t (fun _ => true) = true.
Proof.
  revert s. induction fuel as [|fuel IH]; intros s H; simpl in H;
    apply orb_true_iff in H as [H|H].
  - exists "", s. split; [reflexivity|exact H].
  - discriminate.
  - exists "", s. split; [reflexivity|exact H].
  - destruct s as [|c s]; [discriminate|].
    destruct (IH _ H) as (pre & t & Hs & Hm).
    destruct (drop_bytes_suffix (rune_width (String c s)) (String c s))
      as [pre0 Hpre0].
    exists (pre0 ++ pre), t. split; [|exact Hm].
    rewrite string_app_assoc, <- Hs. exact Hpre0.
Qed.

Lemma newline_eqb (c : ascii) : c <> "010"%char -> Ascii.eqb c "010"%char = false.
Proof. intros H. apply Ascii.eqb_neq, H. Qed.

(** X12. The pattern is not anchored and [\d+] needs one digit: any
    origin that contains [http://localhost:] followed by a digit is
    allowed, whatever comes before or after. *)
Theorem localhost_origin_allowed (pre rest : string) (d : ascii) :
  is_digit d = true ->
  MatchOriginRegexp (pre ++ "http://localhost:" ++ String d rest) = true.
Proof.
  intros Hd. unfold MatchOriginRegexp.
  change ("http://localhost:" ++ String d rest)
    with (String "h" ("ttp://localhost:" ++ String d rest)).
  apply Match_reaches; [reflexivity|].
  change (String "h" ("ttp://localhost:" ++ String d rest))
    with ("http://localhost:" ++ String d rest).
  unfold spec0. cbn [match_here]. rewrite strip_app.
  cbn [String.length plus_loop step]. rewrite Hd. reflexivity.
Qed.

(** X13. The dot of [odysee.com] is not escaped: any origin that
    contains [https://odysee], one byte that is not a newline, and [com]
    is allowed, whatever comes before or after. *)
Theorem odysee_origin_allowed (pre rest : string) (c : ascii) :
  c <> "010"%char ->
  MatchOriginRegexp (pre ++ "https://odysee" ++ String c ("com" ++ rest)) = true.
Proof.
  intros Hc. apply newline_eqb in Hc. unfold MatchOriginRegexp.
  change ("https://odysee" ++ String c ("com" ++ rest))
    with (String "h" ("ttps://odysee" ++ String c ("com" ++ rest))).
  apply Match_reaches; [reflexivity|].
  change (String "h" ("ttps://odysee" ++ String c ("com" ++ rest)))
    with ("https://odysee" ++ String c ("com" ++ rest)).
  unfold spec0. cbn [match_here].
  apply orb_true_iff. right. apply orb_true_iff. left.
  rewrite strip_app.
  change ("com" ++ rest) with (String "c" ("om" ++ rest)).
  rewrite step_any_byte by (exact Hc || reflexivity).
  change (String "c" ("om" ++ rest)) with ("com" ++ rest).
  rewrite strip_app. reflexivity.
Qed.

(** X14. Subdomains: for any non-empty run of bytes without a newline
    in the place of the subdomain, [https://<sub>.odysee<c>com] and
    [https://<sub>.lbry<c>tv] are allowed for any byte [c] that is not
    a newline, whatever comes before or after. *)
Theorem subdomain_origin_allowed (pre sub rest : string) (c : ascii) :
  sub <> "" -> no_newline sub = true -> c <> "010"%char ->
  MatchOriginRegexp
    (pre ++ "https://" ++ sub ++ ".odysee" ++ String c ("com" ++ rest)) = true /\
  MatchOriginRegexp
    (pre ++ "https://" ++ sub ++ ".lbry" ++ String c ("tv" ++ rest)) = true.
Proof.
  intros Hsub Hnl Hc. apply newline_eqb in Hc. unfold MatchOriginRegexp.
  split.
  - change ("https://" ++ sub ++ ".odysee" ++ String c ("com" ++ rest))
      with (String "h" ("ttps://" ++ sub ++ ".odysee" ++ String c ("com" ++ rest))).
    apply Match_reaches; [reflexivity|].
    change (String "h" ("ttps://" ++ sub ++ ".odysee" ++ String c ("com" ++ rest)))
      with ("https://" ++ sub ++ ".odysee" ++ String c ("com" ++ rest)).
    unfold spec0. cbn [match_here].
    apply orb_true_iff. right. apply orb_true_iff. right.
    apply orb_true_iff. left.
    rewrite strip_app.
    change (".odysee" ++ String c ("com" ++ rest))
      with (String "." ("odysee" ++ String c ("com" ++ rest))).
    apply plus_any_reaches; [exact Hsub | exact Hnl | reflexivity | | ].
    + change (String "." ("odysee" ++ String c ("com" ++ rest)))
        with (".odysee" ++ String c ("com" ++ rest)).
      rewrite strip_app.
      change ("com" ++ rest) with (String "c" ("om" ++ rest)).
      rewrite step_any_byte by (exact Hc || reflexivity).
      change (String "c" ("om" ++ rest)) with ("com" ++ rest).
      rewrite strip_app. reflexivity.
    + rewrite string_app_length. lia.
  - change ("https://" ++ sub ++ ".lbry" ++ String c ("tv" ++ rest))
      with (String "h" ("ttps://" ++ sub ++ ".lbry" ++ String c ("tv" ++ rest))).
    apply Match_reaches; [reflexivity|].
    change (String "h" ("ttps://" ++ sub ++ ".lbry" ++ String c ("tv" ++ rest)))
      with ("https://" ++ sub ++ ".lbry" ++ String c ("tv" ++ rest)).
    unfold spec0. cbn [match_here].
    apply orb_true_iff. right. apply orb_true_iff. right.
    apply orb_true_iff. right.
    rewrite strip_app.
    change (".lbry" ++ String c ("tv" ++ rest))
      with (String "." ("lbry" ++ String c ("tv" ++ rest))).
    apply plus_any_reaches; [exact Hsub | exact Hnl | reflexivity | | ].
    + change (String "." ("lbry" ++ String c ("tv" ++ rest)))
        with (".lbry" ++ String c ("tv" ++ rest)).
      rewrite strip_app.
      change ("tv" ++ rest) with (String "t" ("v" ++ rest)).
      rewrite step_any_byte by (exact Hc || reflexivity).
      change (String "t" ("v" ++ rest)) with ("tv" ++ rest).
      rewrite strip_app. reflexivity.
    + rewrite string_app_length. lia.
Qed.

(** X15. What every allowed origin has: it contains
    [http://localhost:] followed by a digit, or it contains [https://].
    No other scheme or host is let through. *)
Theorem allowed_origin_contains (origin : string) :
  MatchOriginRegexp origin = true ->
  exists pre post,
    (origin = pre ++ "http://localhost:" ++ post /\
     exists d post', post = String d post' /\ is_digit d = true) \/
    origin = pre ++ "https://" ++ post.
Proof.
  unfold MatchOriginRegexp, Match. intros H.
  apply search_sound in H as (pre & t & -> & Hm).
  exists pre. unfold spec0 in Hm. cbn [match_here] in Hm.
  repeat (apply orb_true_iff in Hm as [Hm|Hm]).
  - destruct (strip "http://localhost:" t) as [t'|] eqn:Hs; [|discriminate].
    apply strip_Some in Hs. exists t'. left. split; [congruence|].
    destruct t' as [|d t'']; [discriminate|].
    cbn [String.length plus_loop step] in Hm.
    destruct (is_digit d) eqn:Hd; [|discriminate]. eauto.
  - destruct (strip "https://odysee" t) as [t'|] eqn:Hs; [|discriminate].
    apply strip_Some in Hs. exists ("odysee" ++ t'). right. rewrite Hs.
    reflexivity.
  - destruct (strip "https://" t) as [t'|] eqn:Hs; [|discriminate].
    apply strip_Some in Hs. exists t'. right. congruence.
  - destruct (strip "https://" t) as [t'|] eqn:Hs; [|discriminate].
    apply strip_Some in Hs. exists t'. right. congruence.
Qed.

End OriginPattern.

Lemma localhost_origin_allowed_witness :
  Reporter.MatchOriginRegexp
    ("https://evil.example/#" ++ "http://localhost:" ++ String "8" ".evil.example")
  = true.
Proof.
  apply (localhost_origin_allowed "https://evil.example/#" ".evil.example" "8").
  reflexivity.
Defined.

Lemma odysee_origin_allowed_witness :
  Reporter.MatchOriginRegexp
    ("" ++ "https://odysee" ++ String "-" ("com" ++ ".evil.example")) = true.
Proof.
  apply (odysee_origin_allowed "" ".evil.example" "-"). discriminate.
Defined.

Lemma subdomain_origin_allowed_witness :
  Reporter.MatchOriginRegexp
    ("" ++ "https://" ++ "api" ++ ".odysee" ++ String "." ("com" ++ "")) = true /\
  Reporter.MatchOriginRegexp
    ("" ++ "https://" ++ "api" ++ ".lbry" ++ String "." ("tv" ++ "")) = true.
Proof.
  apply (subdomain_origin_allowed "" "api" "" ".").
  - discriminate.
  - reflexivity.
  - discriminate.
Defined.

Lemma allowed_origin_contains_witness :
  exists pre post,
    ("https://odysee.com" = pre ++ "http://localhost:" ++ post /\
     exists d post', post = String d post' /\ Reporter.is_digit d = true) \/
    "https://odysee.com" = pre ++ "https://" ++ post.
Proof.
  apply (allowed_origin_contains "https://odysee.com"). reflexivity.
Defined.

Section ReporterServer.

Import Reporter.

Context {Payload Res : Type}.


Ltac unfold_reporter :=
  unfold noted, ServeHTTP, NewAddHandler, NewHealthzHandler, NewCORSHandler,
    or_errhandler, call_errhandler, call_decode, call_endpoint,
    call_encodeResponse, call_encodeError, Reporter.Header_Set,
    Reporter.WriteHeader, via_writer, on_writer, note, rpanic in *;
  unfold mbind, mret, RM_bind, RM_ret in *.

(** X10. The CORS wrapper never stands in the way of a request.  When
    the request has no [Origin], or one the pattern does not match, the
    wrapped handler runs exactly as the handler it wraps: same answer,
    no CORS header added, and no rejection of the disallowed origin. *)
Theorem HandleReporterOrigin_transparent
    (f : @HFun Payload Res) (r : HttpRequest) (st : @RState Payload Res) :
  Header_Get r "Origin" = "" \/
  MatchOriginRegexp (Header_Get r "Origin") = false ->
  exists g,
    HandleReporterOrigin (HandlerFunc f) = Returned (HandlerFunc g) /\
    g r st = f r st.
Proof.
  intros H. eexists. split; [reflexivity|]. simpl.
  destruct H as [-> | H]; [reflexivity|].
  rewrite H. destruct (String.eqb _ ""); reflexivity.
Qed.

(** X11. The answer to a pre-flight request, from the mounted CORS
    handler on a fresh writer.  Status 200 and no body in every case.
    For an allowed origin the headers sent hold the request's own
    [Origin] as the allowed origin (never a wildcard), [Vary: Origin]
    and a max age of 600; the allowed methods and headers are sent only
    when the request names an [Access-Control-Request-Method].  For any
    other origin, and without one, no header is sent at all. *)
Theorem preflight_response (r : HttpRequest) :
  let origin := Header_Get r "Origin" in
  let acrm := Header_Get r "Access-Control-Request-Method" in
  exists g,
    HandleReporterOrigin (@NewCORSHandler Payload Res)
      = Returned (HandlerFunc g) /\
    (g r freshState).1 = Returned tt /\
    written (rsp (g r freshState).2) = [] /\
    exists sent,
      wroteHeader (rsp (g r freshState).2) = Some (200, sent) /\
      if negb (String.eqb origin "") && MatchOriginRegexp origin
      then sent !! "Access-Control-Allow-Origin" = Some [origin] /\
           sent !! "Vary" = Some ["Origin"] /\
           sent !! "Access-Control-Max-Age" = Some ["600"] /\
           sent !! "Access-Control-Allow-Methods"
             = (if String.eqb acrm "" then None else Some ["GET, POST"]) /\
           sent !! "Access-Control-Allow-Headers"
             = (if String.eqb acrm "" then None else Some ["content-type"])
      else sent = ∅.
Proof.
  intros origin acrm. subst origin acrm.
  unfold HandleReporterOrigin, NewCORSHandler, freshState.
  eexists. split; [reflexivity|]. unfold_reporter.
  destruct (String.eqb (Header_Get r "Origin") "") eqn:Ho; simpl.
  { do 2 (split; [reflexivity|]). eexists. split; reflexivity. }
  destruct (MatchOriginRegexp (Header_Get r "Origin")) eqn:Hm; simpl.
  2:{ do 2 (split; [reflexivity|]). eexists. split; reflexivity. }
  destruct (String.eqb (Header_Get r "Access-Control-Request-Method") "");
    simpl; do 2 (split; [reflexivity|]); eexists; (split; [reflexivity|]);
    repeat split; simplify_map_eq; reflexivity.
Qed.

(** X16. Mounting the server that [New] builds never panics, and the
    routes it registers on the mux are, verb by verb and pattern by
    pattern and in the same order, the [Mounts] that [New] declares. *)
Theorem Mount_New_registers_Mounts
    (e : @Endpoints Payload Res) (c : @Codecs Payload Res) (errhandler : option ErrHandler)
    (mux : @Muxer Payload Res) :
  exists routes,
    Mount mux (New e c errhandler) = (Returned tt, (mux ++ routes)%list) /\
    map route_key routes = map mount_key (Mounts (New e c errhandler)).
Proof.
  unfold Mount, MountAddHandler, MountHealthzHandler, MountCORSHandler,
    New, mux_Handle. simpl.
  eexists. split.
  - rewrite <- !app_assoc. simpl. reflexivity.
  - reflexivity.
Qed.

(** X17. [Mount] on any server, for instance one whose handlers went
    through [Use].  The type assertion in [HandleReporterOrigin] makes
    each mount panic unless the handler is an [http.HandlerFunc], with
    the runtime's message naming the handler's dynamic type, or [nil]
    for a nil handler; the routes
    mounted before the failing one stay on the mux.  When [Mount]
    returns, the four routes are registered and every one of them serves
    the CORS wrapper: the fallback closures are never used. *)
Theorem Mount_needs_HandlerFuncs (mux : @Muxer Payload Res) (s : @Server Payload Res) :
  match Add s, Healthz s, CORS s with
  | HandlerFunc _, HandlerFunc _, HandlerFunc _ =>
      exists fa fh fc,
        HandleReporterOrigin (Add s) = Returned (HandlerFunc fa) /\
        HandleReporterOrigin (Healthz s) = Returned (HandlerFunc fh) /\
        HandleReporterOrigin (CORS s) = Returned (HandlerFunc fc) /\
        Mount mux s =
          (Returned tt,
           (mux ++
            [ {| route_verb := "POST"; route_pattern := "/reports/playback";
                 route_handler := fa |};
              {| route_verb := "GET"; route_pattern := "/healthz";
                 route_handler := fh |};
              {| route_verb := "OPTIONS";
                 route_pattern := "/reports/playback";
                 route_handler := fc |};
              {| route_verb := "OPTIONS"; route_pattern := "/healthz";
                 route_handler := fc |} ])%list)
  | HandlerFunc _, HandlerFunc _, h =>
      (Mount mux s).1 = Panicked (interface_conversion (concrete_type h)) /\
      map route_key (Mount mux s).2 =
        (map route_key mux
         ++ [("POST", "/reports/playback"); ("GET", "/healthz")])%list
  | HandlerFunc _, h, _ =>
      (Mount mux s).1 = Panicked (interface_conversion (concrete_type h)) /\
      map route_key (Mount mux s).2 =
        (map route_key mux ++ [("POST", "/reports/playback")])%list
  | h, _, _ =>
      Mount mux s = (Panicked (interface_conversion (concrete_type h)), mux)
  end.
Proof.
  unfold Mount, MountAddHandler, MountHealthzHandler, MountCORSHandler,
    mux_Handle.
  destruct (Add s) as [fa|ta ?|]; simpl; [|reflexivity|reflexivity].
  destruct (Healthz s) as [fh|th ?|]; simpl.
  2,3: split; [reflexivity|]; rewrite map_app; reflexivity.
  destruct (CORS s) as [fc|tc ?|]; simpl.
  - do 3 eexists. do 3 (split; [reflexivity|]).
    rewrite <- !app_assoc. reflexivity.
  - split; [reflexivity|]. rewrite <- !app_assoc, map_app. reflexivity.
  - split; [reflexivity|]. rewrite <- !app_assoc, map_app. reflexivity.
Qed.

(** The message for a handler type of package [main], and for a type of
    another package that prints as the asserted one. *)
Example interface_conversion_main_other :
  interface_conversion
    (Some {| type_string := "main.other"; pkg_path := "main" |})
  = "interface conversion: http.Handler is main.other, not http.HandlerFunc"
  /\
  interface_conversion
    (Some {| type_string := "http.HandlerFunc";
             pkg_path := "example.com/vendor/net/http" |})
  = "interface conversion: http.Handler is http.HandlerFunc, not http.HandlerFunc (types from different packages)".
Proof. split; reflexivity. Qed.

(** X18. The add handler calls the endpoint only for a request that
    decoded, once, with the decoded payload and a context that carries
    the request's [Accept] header, method [add] and service [reporter];
    and on every run, also one that ends in a panic, exactly one encoder
    is invoked: the error encoder with the decoding or endpoint error,
    or the response encoder with the endpoint's result. *)
Theorem NewAddHandler_endpoint_gated
    (endpoint : @Endpoint Payload Res) (decodeRequest : HttpRequest -> error + Payload)
    (encodeResponse : Encoder Res) (encodeError : Encoder error)
    (errhandler : option ErrHandler) (r : HttpRequest) (st : @RState Payload Res) :
  let run := ServeHTTP (NewAddHandler endpoint decodeRequest encodeResponse
                          encodeError errhandler) r in
  let ctx := {| AcceptTypeKey := Header_Get r "Accept";
                MethodKey := "add"; ServiceKey := "reporter" |} in
  head (noted run st) = Some (Decoded r) /\
  match decodeRequest r with
  | inl e =>
      List.filter is_endpoint_call (noted run st) = [] /\
      List.filter is_encoding (noted run st) = [ErrorEncoded ctx e]
  | inr p =>
      List.filter is_endpoint_call (noted run st)
        = [EndpointCalled ctx (Some p)] /\
      List.filter is_encoding (noted run st) =
        [match endpoint ctx (Some p) with
         | inl e => ErrorEncoded ctx e
         | inr res => ResponseEncoded ctx res
         end]
  end.
Proof.
  intros run ctx. subst run ctx. unfold request_ctx. unfold_reporter.
  simpl.
  destruct (decodeRequest r) as [e|p]; simpl.
  - destruct (encodeError _ _ e) as [w' [e'|]]; simpl;
      [destruct errhandler; simpl|];
      rewrite <- ?app_assoc, ?drop_length_app; simpl; repeat split.
  - destruct (endpoint _ (Some p)) as [e|res]; simpl.
    + destruct (encodeError _ _ e) as [w' [e'|]]; simpl;
        [destruct errhandler; simpl|];
        rewrite <- ?app_assoc, ?drop_length_app; simpl; repeat split.
    + destruct (encodeResponse _ _ res) as [w' [e'|]]; simpl;
        [destruct errhandler; simpl|];
        rewrite <- ?app_assoc, ?drop_length_app; simpl; repeat split.
Qed.

(** X19. When the response encoder of the add handler fails, the error
    handler is called with the encoder's error on the writer as the
    encoder left it.  With a nil error handler (which the comment on
    [New] allows) the handler panics at that point, after the endpoint
    has run. *)
Theorem NewAddHandler_response_encoding_fails
    (endpoint : @Endpoint Payload Res) (decodeRequest : HttpRequest -> error + Payload)
    (encodeResponse : Encoder Res) (encodeError : Encoder error)
    (errhandler : option ErrHandler) (r : HttpRequest) (st : @RState Payload Res)
    (p : Payload) (res : Res) (w' : ResponseWriter) (e' : error) :
  let ctx := {| AcceptTypeKey := Header_Get r "Accept";
                MethodKey := "add"; ServiceKey := "reporter" |} in
  decodeRequest r = inr p ->
  endpoint ctx (Some p) = inr res ->
  encodeResponse ctx (rsp st) res = (w', Some e') ->
  ServeHTTP (NewAddHandler endpoint decodeRequest encodeResponse
               encodeError errhandler) r st =
    match errhandler with
    | Some f =>
        (Returned tt,
         {| rsp := f ctx w' e';
            effects := (effects st ++
              [Decoded r; EndpointCalled ctx (Some p);
               ResponseEncoded ctx res; ErrHandled ctx e'])%list |})
    | None =>
        (Panicked nil_dereference,
         {| rsp := w';
            effects := (effects st ++
              [Decoded r; EndpointCalled ctx (Some p);
               ResponseEncoded ctx res])%list |})
    end.
Proof.
  intros ctx Hdec Hend Henc. subst ctx.
  unfold_reporter. unfold request_ctx in *. simpl in *. rewrite Hdec. simpl. rewrite Hend. simpl.
  rewrite Henc. simpl.
  destruct errhandler; simpl; rewrite <- !app_assoc; reflexivity.
Qed.

(** X20. A request that does not decode never reaches the endpoint; the
    decoding error goes to the error encoder.  When that encoder fails
    too, the error handler gets the encoder's error, and the decoding
    error is dropped. *)
Theorem NewAddHandler_decode_error
    (endpoint : @Endpoint Payload Res) (decodeRequest : HttpRequest -> error + Payload)
    (encodeResponse : Encoder Res) (encodeError : Encoder error)
    (f : ErrHandler) (r : HttpRequest) (st : @RState Payload Res)
    (e : error) (w' : ResponseWriter) (failure : option error) :
  let ctx := {| AcceptTypeKey := Header_Get r "Accept";
                MethodKey := "add"; ServiceKey := "reporter" |} in
  decodeRequest r = inl e ->
  encodeError ctx (rsp st) e = (w', failure) ->
  ServeHTTP (NewAddHandler endpoint decodeRequest encodeResponse
               encodeError (Some f)) r st =
    (Returned tt,
     match failure with
     | None =>
         {| rsp := w';
            effects := (effects st ++ [Decoded r; ErrorEncoded ctx e])%list |}
     | Some e' =>
         {| rsp := f ctx w' e';
            effects := (effects st ++
              [Decoded r; ErrorEncoded ctx e; ErrHandled ctx e'])%list |}
     end).
Proof.
  intros ctx Hdec Henc. subst ctx.
  unfold_reporter. unfold request_ctx in *. simpl in *. rewrite Hdec. simpl. rewrite Henc.
  destruct failure; simpl; rewrite <- !app_assoc; reflexivity.
Qed.

(** X21. The health handler decodes nothing: on every run the first
    effect is the one call of the endpoint, with a nil payload and a
    context of method [healthz] and service [reporter], followed by
    exactly one encoder, chosen by the endpoint's answer. *)
Theorem NewHealthzHandler_calls_endpoint
    (endpoint : @Endpoint Payload Res) (encodeResponse : Encoder Res)
    (encodeError : Encoder error) (errhandler : option ErrHandler)
    (r : HttpRequest) (st : @RState Payload Res) :
  let run := ServeHTTP (NewHealthzHandler endpoint encodeResponse
                          encodeError errhandler) r in
  let ctx := {| AcceptTypeKey := Header_Get r "Accept";
                MethodKey := "healthz"; ServiceKey := "reporter" |} in
  head (noted run st) = Some (EndpointCalled ctx None) /\
  List.filter is_endpoint_call (noted run st) = [EndpointCalled ctx None] /\
  List.filter is_encoding (noted run st) =
    [match endpoint ctx None with
     | inl e => ErrorEncoded ctx e
     | inr res => ResponseEncoded ctx res
     end].
Proof.
  intros run ctx. subst run ctx. unfold request_ctx. unfold_reporter.
  simpl.
  destruct (endpoint _ None) as [e|res]; simpl.
  - destruct (encodeError _ _ e) as [w' [e'|]]; simpl;
      [destruct errhandler; simpl|];
      rewrite <- ?app_assoc, ?drop_length_app; simpl; repeat split.
  - destruct (encodeResponse _ _ res) as [w' [e'|]]; simpl;
      [destruct errhandler; simpl|];
      rewrite <- ?app_assoc, ?drop_length_app; simpl; repeat split.
Qed.

End ReporterServer.

Lemma HandleReporterOrigin_transparent_witness :
  exists g,
    Reporter.HandleReporterOrigin
      (Reporter.NewHealthzHandler (Reporter.e_Healthz Doubles.endpoints)
         Doubles.failing Doubles.failing (Some Doubles.answer_500))
      = Returned (Reporter.HandlerFunc g) /\
    g (Reporter.with_headers [("Origin", "https://example.org")])
      Reporter.freshState
    = Reporter.ServeHTTP
        (Reporter.NewHealthzHandler (Reporter.e_Healthz Doubles.endpoints)
           Doubles.failing Doubles.failing (Some Doubles.answer_500))
        (Reporter.with_headers [("Origin", "https://example.org")])
        Reporter.freshState.
Proof.
  destruct (HandleReporterOrigin_transparent
              (Reporter.ServeHTTP
                 (Reporter.NewHealthzHandler
                    (Reporter.e_Healthz Doubles.endpoints)
                    Doubles.failing Doubles.failing
                    (Some Doubles.answer_500)))
              (Reporter.with_headers [("Origin", "https://example.org")])
              Reporter.freshState)
    as (g & Hg & Hrun).
  - right. vm_compute. reflexivity.
  - exists g. split; [exact Hg | exact Hrun].
Defined.

Lemma NewAddHandler_response_encoding_fails_witness :
  (Reporter.ServeHTTP
     (Reporter.Add (Reporter.New Doubles.endpoints Doubles.codecs None))
     (Reporter.with_headers [("Content-Type", "application/json")])
     Reporter.freshState).1 = Panicked nil_dereference.
Proof.
  assert (H := NewAddHandler_response_encoding_fails
             (Reporter.e_Add Doubles.endpoints) Doubles.decode_report
             Doubles.failing Doubles.failing None
             (Reporter.with_headers [("Content-Type", "application/json")])
             Reporter.freshState "report" "ok" newResponseWriter
             Doubles.broken_pipe).
  simpl in H. specialize (H ltac:(vm_compute; reflexivity) eq_refl eq_refl).
  exact (f_equal fst H).
Defined.

Lemma NewAddHandler_decode_error_witness :
  fst <$> wroteHeader (Reporter.rsp
    (Reporter.ServeHTTP
       (Reporter.Add (Reporter.New Doubles.endpoints Doubles.codecs
                        (Some Doubles.answer_500)))
       (Reporter.with_headers [("Accept", "text/plain")])
       Reporter.freshState).2) = Some 500.
Proof.
  assert (H := NewAddHandler_decode_error
             (Reporter.e_Add Doubles.endpoints) Doubles.decode_report
             Doubles.failing Doubles.failing Doubles.answer_500
             (Reporter.with_headers [("Accept", "text/plain")])
             Reporter.freshState (Foreign "invalid content type")
             newResponseWriter (Some Doubles.broken_pipe)).
  simpl in H. specialize (H ltac:(vm_compute; reflexivity) eq_refl).
  exact (f_equal (fun x => fst <$> wroteHeader (Reporter.rsp x.2)) H).
Defined.

Lemma Handle_failure_kind_and_backend_witness :
  keep caller_event (added
    (Handle Demo.deps (Demo.anonymous (readable (Demo.doc "wallet_send"))))
    Demo.fresh) = [].
Proof.
  apply (Handle_failure_kind_and_backend Demo.deps
           (Demo.anonymous (readable (Demo.doc "wallet_send"))) Demo.fresh
           "wallet_send" "" FailureKindAuth).
  vm_compute. auto.
Defined.

(** A middleware that returns a handler of its own type [main.other]:
    mounting after [Use] panics on the first handler, with the text the
    runtime gives, and registers nothing. *)
Example Mount_after_Use_panics :
  Reporter.Mount []
    (Reporter.Use (Reporter.New Doubles.endpoints Doubles.codecs None)
       (fun h => Reporter.OtherHandler
                   {| Reporter.type_string := "main.other";
                      Reporter.pkg_path := "main" |}
                   (Reporter.ServeHTTP h)))
  = (Panicked
       "interface conversion: http.Handler is main.other, not http.HandlerFunc",
     []).
Proof. reflexivity. Qed.

(** A middleware that returns no handler at all: the assertion reports
    the nil interface value. *)
Example Mount_after_Use_nil_panics :
  Reporter.Mount []
    (Reporter.Use (Reporter.New Doubles.endpoints Doubles.codecs None)
       (fun _ => Reporter.NilHandler))
  = (Panicked "interface conversion: http.Handler is nil, not http.HandlerFunc",
     []).
Proof. reflexivity. Qed.
